(** * aws-os-dashboards: the SigV4 signing proxy of [index.js]

    A shallow embedding of the start-up code (option parsing, endpoint,
    region and target resolution, credential initialisation) and of the
    Express request pipeline (body capture, credential gate, health route,
    Basic-Auth gate, sign-and-forward handler, [proxyRes] hook), followed by
    the properties of the specification that are settled on it.

    JavaScript strings are [string]s, [undefined] is [None], objects used as
    maps ([process.env], header objects, the Basic-Auth [users] object) are
    [gmap]s keyed by strings, and request bodies are lists of bytes. *)

From Stdlib Require Import Strings.String Strings.Ascii NArith List Bool Strings.Byte Lia.
From stdpp Require Import base option strings gmap.

Open Scope string_scope.

(** ** JavaScript values used by the start-up code *)

Module Js.

(** Truthiness of a value that is a string or [undefined]:
    only [undefined] and the empty string are falsy. *)
Definition truthy (v : option string) : bool :=
  match v with
  | Some s => negb (String.eqb s "")
  | None => false
  end.

(** [a || b] *)
Definition or (a b : option string) : option string :=
  if truthy a then a else b.

(** Property key made from a value: [users[undefined]] is the key
    ["undefined"]. *)
Definition key (v : option string) : string :=
  match v with
  | Some s => s
  | None => "undefined"
  end.

(** [s.startsWith(p)], returning what follows [p]. *)
Fixpoint strip_prefix (p s : string) : option string :=
  match p, s with
  | EmptyString, _ => Some s
  | String a p', String c s' =>
      if Ascii.eqb a c then strip_prefix p' s' else None
  | String _ _, EmptyString => None
  end.

Definition starts_with (p s : string) : bool :=
  match strip_prefix p s with Some _ => true | None => false end.

(** [s.endsWith(p)] *)
Fixpoint ends_with (p s : string) : bool :=
  String.eqb p s ||
  match s with
  | EmptyString => false
  | String _ s' => ends_with p s'
  end.

(** [s.includes(p)] *)
Fixpoint includes (p s : string) : bool :=
  starts_with p s ||
  match s with
  | EmptyString => false
  | String _ s' => includes p s'
  end.

End Js.

(** ** Command line and environment *)

(** [process.env] *)
Abbreviation ProcessEnv := (gmap string string).

(** The options given a value on the command line and the positional
    arguments, as [hideBin(process.argv)] carries them. [None]: the flag is
    absent, or it stands alone with no value after it, in which case yargs
    takes the declared [default] (something falsy when that is undefined).
    The options u, a, s and l are declared without a type: yargs hands
    over a number when the text of their value reads as one, and the values
    here are the texts that do not. *)
Record Cli := {
  flag_b : option string;
  flag_p : option string;
  flag_r : option string;
  flag_u : option string;
  flag_a : option string;
  flag_s : option string;
  flag_H : option string;
  flag_l : option string;
  positional : list string
}.

(** [argv], the object yargs builds: each option is the flag's value when
    the flag is given one and the declared [default] otherwise. For the
    option s the default is [false], which [None] stands for: a lone [-s]
    leaves it false, and only a value after [-s] makes it truthy. *)
Record Argv := {
  argv_b : option string;
  argv_p : option string;
  argv_r : option string;
  argv_u : option string;
  argv_a : option string;
  argv_s : option string;
  argv_H : option string;
  argv_l : option string;
  argv_pos : list string   (* argv._ *)
}.

Definition with_default (flag dflt : option string) : option string :=
  match flag with
  | Some v => Some v
  | None => dflt
  end.

Definition parse_argv (cli : Cli) (env : ProcessEnv) : Argv :=
  {| argv_b := with_default (flag_b cli)
                 (Js.or (env !! "BIND_ADDRESS") (Some "127.0.0.1"));
     argv_p := with_default (flag_p cli) (Js.or (env !! "PORT") (Some "9200"));
     argv_r := with_default (flag_r cli) (env !! "REGION");
     argv_u := with_default (flag_u cli)
                 (Js.or (env !! "AUTH_USER") (env !! "USER"));
     argv_a := with_default (flag_a cli)
                 (Js.or (env !! "AUTH_PASSWORD") (env !! "PASSWORD"));
     argv_s := flag_s cli;
     argv_H := with_default (flag_H cli) (env !! "HEALTH_PATH");
     argv_l := with_default (flag_l cli) (Js.or (env !! "LIMIT") (Some "10000kb"));
     argv_pos := positional cli |}.

(** ** The regular expressions of the code *)

Module Re.

Definition is_dot (c : ascii) : bool := Ascii.eqb c ".".

(** [[^.]+] at the head of [s]: the longest run of characters other than
    a dot, and what follows it. *)
Fixpoint label_run (s : string) : string * string :=
  match s with
  | EmptyString => ("", "")
  | String c t =>
      if is_dot c then ("", s)
      else let '(l, r) := label_run t in (String c l, r)
  end.

Definition LF : ascii := ascii_of_nat 10.
Definition CR : ascii := ascii_of_nat 13.
(* U+2028 and U+2029 in UTF-8 start with E2 80 and end with A8 or A9 *)
Definition xE2 : ascii := ascii_of_nat 226.
Definition x80 : ascii := ascii_of_nat 128.
Definition xA8 : ascii := ascii_of_nat 168.
Definition xA9 : ascii := ascii_of_nat 169.

(** [(?=.*$)]: the rest of the input holds no line terminator, since [.]
    does not match one and [$] is the end of the input. *)
Fixpoint dots_to_end (s : string) : bool :=
  match s with
  | EmptyString => true
  | String c t =>
      negb (Ascii.eqb c LF) && negb (Ascii.eqb c CR) &&
      negb (match t with
            | String c1 (String c2 _) =>
                Ascii.eqb c xE2 && Ascii.eqb c1 x80 &&
                (Ascii.eqb c2 xA8 || Ascii.eqb c2 xA9)
            | _ => false
            end) &&
      dots_to_end t
  end.

(** A match of [/\.([^.]+)\.es\.amazonaws\.com\.?(?=.*$)/] starting at the
    head of [s]; the result is capture group 1. The optional [\.?] takes
    no part in the decision: a dot is no line terminator. *)
Definition region_at (s : string) : option string :=
  match s with
  | String c t =>
      if is_dot c then
        let '(lab, rest) := label_run t in
        match Js.strip_prefix ".es.amazonaws.com" rest with
        | Some post =>
            if negb (String.eqb lab "") && dots_to_end post
            then Some lab else None
        | None => None
        end
      else None
  | EmptyString => None
  end.

(** [ENDPOINT.match(/\.([^.]+)\.es\.amazonaws\.com\.?(?=.*$)/)], giving
    [m[1]] of the leftmost match. *)
Fixpoint region_match (s : string) : option string :=
  match region_at s with
  | Some lab => Some lab
  | None =>
      match s with
      | EmptyString => None
      | String _ t => region_match t
      end
  end.

(** No dot in [s]. *)
Fixpoint dotless (s : string) : bool :=
  match s with
  | EmptyString => true
  | String c t => negb (is_dot c) && dotless t
  end.

(** [TARGET.match(/^https?:\/\//)] *)
Definition has_http_scheme (s : string) : bool :=
  Js.starts_with "http://" s || Js.starts_with "https://" s.

(** [req.url.match(/\.(css|js|img|font)/)] *)
Definition static_asset (url : string) : bool :=
  Js.includes ".css" url || Js.includes ".js" url ||
  Js.includes ".img" url || Js.includes ".font" url.

End Re.

(** ** Start-up: endpoint, region and target *)

Inductive Output :=
| Stderr (msg : string).     (* console.error(msg) *)

Record Config := {
  ARGV : Argv;
  ENDPOINT : string;
  REGION : string;
  TARGET : string;
  PROFILE : option string
}.

(** [yargs], bound at line 19, is what [yargs/yargs] exports: the factory
    that line 22 calls, not a parser. It has no [showHelp], so the calls
    [yargs.showHelp()] at lines 74 and 89 throw a TypeError that nothing
    catches: the usage is not printed, the [process.exit(1)] of the next
    line is not reached, and the script dies of the error. *)
Definition showHelp_error : string := "yargs.showHelp is not a function".

Inductive Startup :=
| Uncaught (out : list Output) (error : string)   (* printed, then died *)
| Ready (cfg : Config).

(** What start-up printed before it stopped. *)
Definition printed (s : Startup) : list Output :=
  match s with
  | Uncaught out _ => out
  | Ready _ => []
  end.

Definition region_error : string :=
  "region cannot be parsed from endpoint address, either the endpoint must end " +:+
  "in .<region>.es.amazonaws.com or --region should be provided as an argument".

(** [process.env.ENDPOINT || argv._[0]] *)
Definition endpoint_of (argv : Argv) (env : ProcessEnv) : option string :=
  Js.or (env !! "ENDPOINT") (head (argv_pos argv)).

(** Lines 94-97: the target is the endpoint, with [https://] in front of it
    when it does not start with [http://] or [https://]. *)
Definition target_of (endpoint : string) : string :=
  if Re.has_http_scheme endpoint then endpoint else "https://" +:+ endpoint.

(** Lines 79-92. *)
Definition resolve_region (argv : Argv) (endpoint : string) : option string :=
  if Js.truthy (argv_r argv) then argv_r argv
  else Re.region_match endpoint.

Definition configure (cli : Cli) (env : ProcessEnv) : Startup :=
  let argv := parse_argv cli env in
  let endpoint := endpoint_of argv env in
  if negb (Js.truthy endpoint) then Uncaught [] showHelp_error
  else
    let ep := Js.key endpoint in
    match resolve_region argv ep with
    | None => Uncaught [Stderr region_error] showHelp_error
    | Some region =>
        Ready {| ARGV := argv;
                 ENDPOINT := ep;
                 REGION := region;
                 TARGET := target_of ep;
                 PROFILE := env !! "AWS_PROFILE" |}
    end.

(** ** [new URL(ENDPOINT).hostname]

    The platform's URL constructor, called with no base, on the fragment an
    endpoint can fall in: an input with no [scheme:] in front of it is
    refused (the constructor throws), the special schemes take an authority
    whose host is lower-cased, any other scheme has a host only after [//].
    Percent-encoded bytes in a host are decoded before the forbidden
    characters are looked for. IPv4 and IPv6 literals and internationalised
    (non-ASCII or punycode) names are outside the fragment and come out as
    their lower-cased text. [None] is the thrown [TypeError]. *)

Module Url.

Definition code (c : ascii) : nat := nat_of_ascii c.

Definition between (lo hi : nat) (c : ascii) : bool :=
  Nat.leb lo (code c) && Nat.leb (code c) hi.

Definition is_upper := between 65 90.
Definition is_lower := between 97 122.
Definition is_digit := between 48 57.
Definition is_alpha (c : ascii) : bool := is_upper c || is_lower c.

Definition lower (c : ascii) : ascii :=
  if is_upper c then ascii_of_nat (code c + 32) else c.

Fixpoint lower_string (s : string) : string :=
  match s with
  | EmptyString => ""
  | String c t => String (lower c) (lower_string t)
  end.

Definition is_char (x : string) (c : ascii) : bool :=
  match x with
  | String a EmptyString => Ascii.eqb a c
  | _ => false
  end.

Definition is_slash (c : ascii) : bool := is_char "/" c || is_char "\" c.

(** Leading and trailing C0 controls and spaces are removed, then every
    tab and newline. *)
Definition c0_or_space (c : ascii) : bool := Nat.leb (code c) 32.

Fixpoint trim_left (s : string) : string :=
  match s with
  | EmptyString => ""
  | String c t => if c0_or_space c then trim_left t else s
  end.

Fixpoint trim_right (s : string) : string :=
  match s with
  | EmptyString => ""
  | String c t =>
      let t' := trim_right t in
      if c0_or_space c && String.eqb t' "" then "" else String c t'
  end.

Definition tab_or_newline (c : ascii) : bool :=
  Nat.eqb (code c) 9 || Nat.eqb (code c) 10 || Nat.eqb (code c) 13.

Fixpoint remove_tab_newline (s : string) : string :=
  match s with
  | EmptyString => ""
  | String c t =>
      if tab_or_newline c then remove_tab_newline t
      else String c (remove_tab_newline t)
  end.

(** Scheme start state and scheme state: an ASCII letter, then letters,
    digits, [+], [-] and [.] up to a colon. Anything else leads to the no
    scheme state, which fails for want of a base URL. *)
Definition scheme_char (c : ascii) : bool :=
  is_alpha c || is_digit c || is_char "+" c || is_char "-" c || is_char "." c.

Fixpoint scheme_tail (s : string) : option (string * string) :=
  match s with
  | EmptyString => None
  | String c t =>
      if is_char ":" c then Some ("", t)
      else if scheme_char c then
        match scheme_tail t with
        | Some (sc, rest) => Some (String (lower c) sc, rest)
        | None => None
        end
      else None
  end.

Definition split_scheme (s : string) : option (string * string) :=
  match s with
  | EmptyString => None
  | String c t =>
      if is_alpha c then
        match scheme_tail t with
        | Some (sc, rest) => Some (String (lower c) sc, rest)
        | None => None
        end
      else None
  end.

Definition is_special (scheme : string) : bool :=
  String.eqb scheme "http" || String.eqb scheme "https" ||
  String.eqb scheme "ws" || String.eqb scheme "wss" ||
  String.eqb scheme "ftp".

(** Special authority slashes and ignore slashes states. *)
Fixpoint skip_slashes (s : string) : string :=
  match s with
  | EmptyString => ""
  | String c t => if is_slash c then skip_slashes t else s
  end.

(** Authority state: up to the first [/], [?], [#], and [\] for a special
    scheme. *)
Fixpoint authority (special : bool) (s : string) : string :=
  match s with
  | EmptyString => ""
  | String c t =>
      if is_char "/" c || is_char "?" c || is_char "#" c ||
         (special && is_char "\" c)
      then "" else String c (authority special t)
  end.

(** What follows the last [@] of the authority, when there is one. *)
Fixpoint after_last_at (s : string) : option string :=
  match s with
  | EmptyString => None
  | String c t =>
      match after_last_at t with
      | Some r => Some r
      | None => if is_char "@" c then Some t else None
      end
  end.

(** Host state: the host runs to the first colon outside brackets; the
    port, when there is one, is what follows. *)
Fixpoint split_host (bracket : bool) (s : string) : string * option string :=
  match s with
  | EmptyString => ("", None)
  | String c t =>
      if is_char ":" c && negb bracket then ("", Some t)
      else
        let bracket' :=
          if is_char "[" c then true
          else if is_char "]" c then false else bracket in
        let '(h, p) := split_host bracket' t in (String c h, p)
  end.

(** Port state: digits only, and no more than 65535. *)
Fixpoint port_value (acc : N) (s : string) : option N :=
  match s with
  | EmptyString => Some acc
  | String c t =>
      if is_digit c
      then port_value (N.min 65536 (acc * 10 + N.of_nat (code c - 48))) t
      else None
  end.

Definition port_ok (p : option string) : bool :=
  match p with
  | None => true
  | Some s =>
      match port_value 0 s with
      | Some n => N.leb n 65535
      | None => false
      end
  end.

Definition hex_value (c : ascii) : option nat :=
  if is_digit c then Some (code c - 48)
  else if between 65 70 c then Some (code c - 55)
  else if between 97 102 c then Some (code c - 87)
  else None.

Fixpoint percent_decode (s : string) : string :=
  match s with
  | EmptyString => ""
  | String c t =>
      match t with
      | String h1 (String h2 t2) =>
          if is_char "%" c then
            match hex_value h1, hex_value h2 with
            | Some a, Some b =>
                String (ascii_of_nat (16 * a + b)) (percent_decode t2)
            | _, _ => String c (percent_decode t)
            end
          else String c (percent_decode t)
      | _ => String c (percent_decode t)
      end
  end.

Definition forbidden_host (c : ascii) : bool :=
  Nat.eqb (code c) 0 || Nat.eqb (code c) 9 || Nat.eqb (code c) 10 ||
  Nat.eqb (code c) 13 || Nat.eqb (code c) 32 ||
  is_char "#" c || is_char "/" c || is_char ":" c || is_char "<" c ||
  is_char ">" c || is_char "?" c || is_char "@" c || is_char "[" c ||
  is_char "\" c || is_char "]" c || is_char "^" c || is_char "|" c.

Definition forbidden_domain (c : ascii) : bool :=
  forbidden_host c || Nat.leb (code c) 31 || is_char "%" c ||
  Nat.eqb (code c) 127.

Fixpoint any_char (f : ascii -> bool) (s : string) : bool :=
  match s with
  | EmptyString => false
  | String c t => f c || any_char f t
  end.

(** Host parser, for a special scheme (a domain) and for the others (an
    opaque host). *)
Definition parse_host (special : bool) (h : string) : option string :=
  if Js.starts_with "[" h then
    if Js.ends_with "]" h then Some (lower_string h) else None
  else if special then
    let d := lower_string (percent_decode h) in
    if String.eqb d "" || any_char forbidden_domain d then None else Some d
  else
    if any_char forbidden_host h then None else Some h.

Definition authority_hostname (special : bool) (s : string) : option string :=
  let auth := authority special s in
  let '(at_seen, hostport) :=
    match after_last_at auth with
    | Some r => (true, r)
    | None => (false, auth)
    end in
  if at_seen && String.eqb hostport "" then None
  else
    let '(h, port) := split_host false hostport in
    if String.eqb h "" && (special || match port with Some _ => true | None => false end)
    then None
    else if negb (port_ok port) then None
    else parse_host special h.

(** File state, file slash state and file host state. *)
Definition drive_letter (s : string) : bool :=
  match s with
  | String a (String b EmptyString) =>
      is_alpha a && (is_char ":" b || is_char "|" b)
  | _ => false
  end.

Definition file_hostname (rest : string) : option string :=
  match rest with
  | String c1 (String c2 t) =>
      if is_slash c1 && is_slash c2 then
        let h := authority true t in
        if drive_letter h || String.eqb h "" then Some ""
        else
          match parse_host true h with
          | Some d => Some (if String.eqb d "localhost" then "" else d)
          | None => None
          end
      else Some ""
  | _ => Some ""
  end.

(** [new URL(input).hostname] *)
Definition hostname (input : string) : option string :=
  let s := remove_tab_newline (trim_right (trim_left input)) in
  match split_scheme s with
  | None => None
  | Some (scheme, rest) =>
      if String.eqb scheme "file" then file_hostname rest
      else if is_special scheme then
        authority_hostname true (skip_slashes rest)
      else
        match Js.strip_prefix "//" rest with
        | Some r => authority_hostname false r
        | None => Some ""
        end
  end.

End Url.

(** ** Results of operations that may throw *)

Inductive result (A : Type) :=
| Ok (a : A)
| Throw (message : string).
Arguments Ok {A} a.
Arguments Throw {A} message.

Record CredentialSet := {
  accessKeyId : string;
  secretAccessKey : string;
  sessionToken : option string
}.

(** ** Credential initialisation (lines 103-157) *)

Module Init.

(** A provider is told by how it is built: [fromNodeProviderChain(init)]
    with [init.profile], or with no argument at all ([None]). *)
Record Provider := { provider_profile : option string }.

Definition fromNodeProviderChain (profile : option string) : Provider :=
  {| provider_profile := profile |}.

(** [new SignatureV4({credentials, region, service, sha256})] *)
Record Signer := {
  signer_credentials : Provider;
  signer_region : string;
  signer_service : string
}.

(** What the process sees of the outside: the outcome of awaiting a
    provider (the number tells how many resolutions came before, so that
    the answer may change with time) and of the STS identity call. *)
Record Cloud := {
  resolve : Provider -> nat -> result CredentialSet;
  get_caller_identity : string -> CredentialSet -> result string
}.

Inductive Event :=
| Constructed (p : Provider)            (* fromNodeProviderChain(...) *)
| Awaited (p : Provider) (ok : bool)    (* await credentials() *)
| Log (msg : string)                    (* console.log *)
| Error (msg : string)                  (* console.error *)
| ProcessExit (code : nat).             (* process.exit *)

(** The globals [credentials] and [signer], the count of resolutions and
    what was done so far. *)
Record State := {
  credentials : option Provider;
  signer : option Signer;
  clock : nat;
  trace : list Event
}.

Definition start : State :=
  {| credentials := None; signer := None; clock := 0; trace := [] |}.

(** State and exceptions. *)
Definition M (A : Type) : Type := State -> result A * State.

Definition ret {A} (a : A) : M A := fun st => (Ok a, st).

Definition bind {A B} (m : M A) (k : A -> M B) : M B :=
  fun st =>
    match m st with
    | (Ok a, st') => k a st'
    | (Throw e, st') => (Throw e, st')
    end.

Definition try_catch {A} (m : M A) (handler : string -> M A) : M A :=
  fun st =>
    match m st with
    | (Ok a, st') => (Ok a, st')
    | (Throw e, st') => handler e st'
    end.

Declare Scope init_scope.
Delimit Scope init_scope with init.
Notation "x <- m ;; k" := (bind m (fun x => k))
  (at level 100, m at next level, right associativity) : init_scope.
Notation "m ;;; k" := (bind m (fun _ => k))
  (at level 100, right associativity) : init_scope.
Open Scope init_scope.

Definition emit (e : Event) : M unit :=
  fun st => (Ok tt, {| credentials := credentials st; signer := signer st;
                       clock := clock st; trace := trace st ++ [e] |}).

(** [credentials = fromNodeProviderChain(...)] *)
Definition set_credentials (p : Provider) : M unit :=
  fun st => (Ok tt, {| credentials := Some p; signer := signer st;
                       clock := clock st;
                       trace := trace st ++ [Constructed p] |}).

Definition set_signer (s : Signer) : M unit :=
  fun st => (Ok tt, {| credentials := credentials st; signer := Some s;
                       clock := clock st; trace := trace st |}).

Definition is_ok {A} (r : result A) : bool :=
  match r with Ok _ => true | Throw _ => false end.

(** [await credentials()] *)
Definition await_credentials (cloud : Cloud) : M CredentialSet :=
  fun st =>
    match credentials st with
    | None => (Throw "credentials is not a function", st)
    | Some p =>
        let r := resolve cloud p (clock st) in
        (r, {| credentials := credentials st; signer := signer st;
               clock := S (clock st);
               trace := trace st ++ [Awaited p (is_ok r)] |})
    end.

(** [await stsClient.send(new GetCallerIdentityCommand({}))]: the client
    resolves its credentials, then asks for the identity. *)
Definition sts_send (cloud : Cloud) (region : string) : M string :=
  c <- await_credentials cloud ;;
  fun st => (get_caller_identity cloud region c, st).

Definition get_credentials : M (option Provider) :=
  fun st => (Ok (credentials st), st).

(** The body of the outer [try]. *)
Definition load (PROFILE : option string) (REGION : string) (cloud : Cloud)
  : M string :=
  (if Js.truthy PROFILE then
     try_catch
       (set_credentials (fromNodeProviderChain PROFILE) ;;;
        _ <- await_credentials cloud ;;
        emit (Log "AWS SSO credentials loaded successfully"))
       (fun ssoError =>
        emit (Log "SSO credentials not available, trying regular profile...") ;;;
        set_credentials (fromNodeProviderChain PROFILE) ;;;
        _ <- await_credentials cloud ;;
        emit (Log "AWS profile credentials loaded successfully"))
   else
     set_credentials (fromNodeProviderChain None) ;;;
     _ <- await_credentials cloud ;;
     emit (Log "AWS default credentials loaded successfully")) ;;;
  p <- get_credentials ;;
  match p with
  | None => fun st => (Throw "credentials is undefined", st)
  | Some p =>
      set_signer {| signer_credentials := p; signer_region := REGION;
                    signer_service := "es" |} ;;;
      account <- sts_send cloud REGION ;;
      emit (Log ("AWS credentials validated successfully for account: "
                 +:+ account)) ;;;
      ret account
  end.

(** A message that starts with a line feed. *)
Definition nl (msg : string) : string := String (ascii_of_nat 10) msg.

(** [initializeCredentials()]: the account on success; a failure anywhere
    ends in [process.exit(1)], which is the thrown result here. *)
Definition initializeCredentials
    (PROFILE : option string) (REGION : string) (cloud : Cloud) : M string :=
  try_catch (load PROFILE REGION cloud)
    (fun message =>
     emit (Error ("Failed to load AWS credentials: " +:+ message)) ;;;
     (if Js.includes "SSO" message then
        emit (Error (nl "To authenticate with AWS SSO, run:")) ;;;
        emit (Error ("aws sso login --profile " +:+
                     Js.key (Js.or PROFILE (Some "default")))) ;;;
        emit (Error (nl "Or if you need to configure SSO:")) ;;;
        emit (Error "aws configure sso")
      else ret tt) ;;;
     emit (ProcessExit 1) ;;;
     fun st => (Throw message, st)).

Close Scope init_scope.

End Init.

(** ** The request pipeline (lines 159-291) *)

(** [req.body]: the buffer the body parser stored, or [undefined]. *)
Inductive Body :=
| Buffer (bytes : list byte)
| Undefined.

(** Header objects: [req.headers] has lower-case keys; a key may come to
    hold [undefined] ([Some None]) once the handler has assigned to it. *)
Abbreviation Headers := (gmap string (option string)).

(** [headers[name]] *)
Definition js_get (hs : Headers) (name : string) : option string :=
  match hs !! name with
  | Some v => v
  | None => None
  end.

Record Request := {
  method : string;
  url : string;                    (* path and query string *)
  headers : Headers;
  payload : option (list byte);    (* the body on the wire, if there is one *)
  body : Body
}.

Definition set_body (req : Request) (b : Body) : Request :=
  {| method := method req; url := url req; headers := headers req;
     payload := payload req; body := b |}.

Definition set_headers (req : Request) (hs : Headers) : Request :=
  {| method := method req; url := url req; headers := hs;
     payload := payload req; body := body req |}.

(** The object handed to [signer.sign]. *)
Record SignRequest := {
  sr_method : string;
  sr_path : string;
  sr_headers : gmap string string;
  sr_body : list byte
}.

(** [proxy.web(req, res, { buffer })] *)
Record ProxyCall := {
  call_method : string;
  call_url : string;
  call_headers : Headers;
  call_buffer : option (list byte)
}.

(** The bytes the proxy sends upstream: the stream given as [buffer], and
    without one the request's own stream, which the body parser has read to
    its end. *)
Definition forwarded_bytes (req : Request) (call : ProxyCall) : list byte :=
  match call_buffer call with
  | Some b => b
  | None =>
      match body req with
      | Buffer _ => []
      | Undefined => match payload req with Some b => b | None => [] end
      end
  end.

Inductive Event :=
| CredentialsAwaited               (* await credentials() in getCredentials *)
| Signed (request : SignRequest)   (* signer.sign(request) *)
| ProxyWeb (call : ProxyCall).     (* proxy.web(...) *)

Inductive Reply :=
| Sent (status : nat) (hs : list (string * string)) (text : string)
| ErrorPage (status : nat)         (* Express's final handler *)
| Proxied (call : ProxyCall).      (* left to the proxy: see [settle] *)

(** An error given to [next]. *)
Record Err := { err_status : option nat; err_message : string }.

Inductive Step :=
| Next (req : Request)
| NextErr (e : Err)
| End (reply : Reply).

(** The credentials the global provider yields during one request: at the
    gate (index 0) and inside the signer (index 1). *)
Record World := { await_credentials : nat -> result CredentialSet }.

Inductive AuthResult := Accept | Reject | Fault (message : string).

Abbreviation Users := (gmap string (option string)).

(** The libraries the pipeline is built from, as far as it uses them. *)
Record Platform := {
  (* crypto.createHash("sha256").update(b).digest("hex") *)
  sha256_hex : list byte -> string;
  (* bytes.parse, which body-parser applies to its [limit] *)
  bytes_parse : string -> option N;
  (* Express: does the route path match the request path *)
  route_match : string -> string -> bool;
  (* basic-auth: the name and password in an Authorization header *)
  parse_basic : option string -> option (string * string);
  (* express-basic-auth: the authorizer over the static [users] object *)
  authorizer : Users -> string -> string -> AuthResult;
  (* SignatureV4.sign with the signer's region and service: the headers of
     the signed request *)
  signer_sign : string -> string -> CredentialSet -> SignRequest ->
                result (gmap string string)
}.

(** Lines 195-200. *)
Definition basic_auth_users (argv : Argv) (env : ProcessEnv) : option Users :=
  if Js.truthy (argv_u argv) && Js.truthy (argv_a argv) then
    let user := Js.or (env !! "USER") (env !! "AUTH_USER") in
    let pass := Js.or (env !! "PASSWORD") (env !! "AUTH_PASSWORD") in
    Some {[ Js.key user := pass ]}
  else None.

Definition headersToInclude : list string :=
  ["accept"; "accept-encoding"; "accept-language"; "content-type";
   "upgrade-insecure-requests"].

(** [req.path]: the URL up to its query string or fragment. *)
Fixpoint path_of (url : string) : string :=
  match url with
  | EmptyString => ""
  | String c t =>
      if Url.is_char "?" c || Url.is_char "#" c then ""
      else String c (path_of t)
  end.

Section Pipeline.

Context (P : Platform).

Definition Middleware : Type := World -> Request -> Step * list Event.

(** [bodyParser.raw({ limit, type: () => true })]: a request with a body
    has it read, whatever its content type; a body longer than the limit
    is an error with status 413. The limit is what [bytes.parse] reads from
    the option; the parser stands for the one built from a limit that can
    be read ([Some]). What the library does with a limit it cannot read is
    not part of this model, and nothing below is stated for that case. *)
Definition body_limit (limit : option string) : option N :=
  bytes_parse P (Js.key (Js.or limit (Some "100kb"))).

Definition too_large (limit : option N) (b : list byte) : bool :=
  match limit with
  | Some n => N.ltb n (N.of_nat (length b))
  | None => false
  end.

Definition bodyParser_raw (limit : option string) : Middleware :=
  fun _ req =>
    match payload req with
    | None => (Next req, [])
    | Some b =>
        if too_large (body_limit limit) b
        then (NextErr {| err_status := Some 413;
                         err_message := "request entity too large" |}, [])
        else (Next (set_body req (Buffer b)), [])
    end.

(** Lines 159-166. *)
Definition getCredentials : Middleware :=
  fun w req =>
    match await_credentials w 0 with
    | Ok _ => (Next req, [CredentialsAwaited])
    | Throw m => (NextErr {| err_status := None; err_message := m |},
                  [CredentialsAwaited])
    end.

(** Lines 189-192, [app.get(argv.H, ...)]: a GET route, which Express
    also runs for HEAD. *)
Definition health_route (H : string) : Middleware :=
  fun _ req =>
    if (String.eqb (method req) "GET" || String.eqb (method req) "HEAD")
       && route_match P H (path_of (url req))
    then (End (Sent 200 [("Content-Type", "text/plain")] "ok"), [])
    else (Next req, []).

(** [basicAuth({ users, challenge: true })] *)
Definition unauthorized : Reply :=
  Sent 401 [("WWW-Authenticate", "Basic")] "".

Definition basicAuth (users : Users) : Middleware :=
  fun _ req =>
    match parse_basic P (js_get (headers req) "authorization") with
    | None => (End unauthorized, [])
    | Some (name, pass) =>
        match authorizer P users name pass with
        | Accept => (Next req, [])
        | Reject => (End unauthorized, [])
        | Fault m => (NextErr {| err_status := None; err_message := m |}, [])
        end
    end.

(** Lines 216-218 *)
Definition body_bytes (b : Body) : list byte :=
  match b with
  | Buffer bytes => bytes
  | Undefined => []       (* Buffer.from(undefined || "") *)
  end.

(** Lines 225-250: the request object given to the signer. *)
Definition sign_request (host : string) (req : Request) : SignRequest :=
  let bytes := body_bytes (body req) in
  let contentSha256 := sha256_hex P bytes in
  let base : gmap string string :=
    <["x-amz-content-sha256" := contentSha256]> (<["Host" := host]> ∅) in
  {| sr_method := method req;
     sr_path := url req;
     sr_headers :=
       foldl (fun hs name =>
                match js_get (headers req) name with
                | Some value => <[name := value]> hs
                | None => hs
                end) base headersToInclude;
     sr_body := bytes |}.

(** Lines 256-264 *)
Definition signed_headers (signed : gmap string string) (hs : Headers)
  : Headers :=
  let hs := <["host" := signed !! "host"]> hs in
  let hs := <["x-amz-date" := signed !! "x-amz-date"]> hs in
  let hs := <["authorization" := signed !! "authorization"]> hs in
  let hs := <["x-amz-content-sha256" := signed !! "x-amz-content-sha256"]> hs in
  if Js.truthy (signed !! "x-amz-security-token")
  then <["x-amz-security-token" := signed !! "x-amz-security-token"]> hs
  else hs.

(** Lines 256-271: the request with the signed headers set on it, and
    the body parser's buffer in a stream of its own when there is one. *)
Definition proxy_call (req : Request) (signed : gmap string string)
  : ProxyCall :=
  let req' := set_headers req (signed_headers signed (headers req)) in
  let bufferStream :=
    match body req with
    | Buffer b => Some b
    | Undefined => None
    end in
  {| call_method := method req';
     call_url := url req';
     call_headers := headers req';
     call_buffer := bufferStream |}.

Definition internal_error : Reply := Sent 500 [] "Internal Server Error".

(** Lines 210-278 *)
Definition sign_and_forward (ENDPOINT REGION : string) : Middleware :=
  fun w req =>
    match Url.hostname ENDPOINT with
    | None => (End internal_error, [])
    | Some host =>
        let request := sign_request host req in
        let signed :=
          match await_credentials w 1 with
          | Ok c => signer_sign P REGION "es" c request
          | Throw m => Throw m
          end in
        match signed with
        | Throw _ => (End internal_error, [Signed request])
        | Ok sh =>
            let call := proxy_call req sh in
            (End (Proxied call), [Signed request; ProxyWeb call])
        end
    end.

(** Express runs the stack in order; an error given to [next] passes over
    what is left, since no error handler is registered, and the final
    handler answers with the error's status, or 500. *)
Definition error_page (e : Err) : Reply :=
  ErrorPage (match err_status e with Some s => s | None => 500 end).

Fixpoint run (stack : list Middleware) (w : World) (req : Request)
  : Reply * list Event :=
  match stack with
  | [] => (ErrorPage 404, [])
  | m :: rest =>
      match m w req with
      | (Next req', t) =>
          let '(reply, t') := run rest w req' in (reply, (t ++ t')%list)
      | (NextErr e, t) => (error_page e, t)
      | (End reply, t) => (reply, t)
      end
  end.

(** Lines 176-278: the stack, in the order of registration. The
    compression middleware hands every request on as it is and answers
    none; it is left out. *)
Definition app (cfg : Config) (env : ProcessEnv) : list Middleware :=
  ([bodyParser_raw (argv_l (ARGV cfg)); getCredentials]
   ++ (if Js.truthy (argv_H (ARGV cfg))
       then [health_route (Js.key (argv_H (ARGV cfg)))] else [])
   ++ (match basic_auth_users (ARGV cfg) env with
       | Some users => [basicAuth users]
       | None => []
       end)
   ++ [sign_and_forward (ENDPOINT cfg) (REGION cfg)])%list.

Definition handle (cfg : Config) (env : ProcessEnv) (w : World)
    (req : Request) : Reply * list Event :=
  run (app cfg env) w req.

End Pipeline.

(** ** The [proxyRes] hook (lines 280-284) *)

(** The response to the caller while the proxy builds it; header names are
    kept in lower case, as [res.setHeader] files them. *)
Record ServerResponse := {
  res_status : nat;
  res_headers : gmap string string;
  res_body : list byte
}.

Definition setHeader (name value : string) (res : ServerResponse)
  : ServerResponse :=
  {| res_status := res_status res;
     res_headers := <[Url.lower_string name := value]> (res_headers res);
     res_body := res_body res |}.

Definition on_proxyRes (req_url : string) (res : ServerResponse)
  : ServerResponse :=
  if Re.static_asset req_url
  then setHeader "Cache-Control" "public, max-age=86400" res
  else res.

(** ** What becomes of a call of the proxy (lines 280-291) *)

(** The answer of the upstream as the proxy library holds it when it
    writes it out: header names in lower case, as Node hands them over, and
    the connection headers as the library's own passes have settled
    them. *)
Record UpstreamResponse := {
  up_status : nat;
  up_headers : gmap string string;
  up_body : list byte
}.

(** The proxy library, once the upstream has answered: it emits [proxyRes]
    first, and then writes the status code and every header of the upstream
    response onto the response, in place of a header already set under the
    same name, and pipes the body through. This is the response as the
    proxy writes it; the compression middleware of line 177, through which
    it goes out, may still encode the body and set the headers that go
    with the encoding. *)
Definition relay (up : UpstreamResponse) (res : ServerResponse)
  : ServerResponse :=
  {| res_status := up_status up;
     res_headers := up_headers up ∪ res_headers res;
     res_body := up_body up |}.

(** How the call of the upstream ends: with an answer, or with the proxy's
    [error] event, before or after the headers of an answer were sent. *)
Inductive Upstream :=
| Responds (up : UpstreamResponse)
| Fails (message : string) (headersSent : bool).

(** Lines 286-291, [proxy.on("error", ...)]: what the handler sends. *)
Definition on_error (headersSent : bool) : option Reply :=
  if headersSent then None
  else Some (Sent 500 [] "Proxy error occurred").

(** What the caller gets in the end. *)
Inductive Answer :=
| Replied (reply : Reply)          (* sent by the application itself *)
| Relayed (res : ServerResponse)   (* the upstream's answer, relayed *)
| Unfinished.                      (* the upstream broke off after the
                                      headers; the handler adds nothing *)

(** The answer to a request whose pipeline ended in [reply], with [res] the
    response as it stands when the proxy is called. *)
Definition settle (upstream : ProxyCall -> Upstream) (res : ServerResponse)
    (reply : Reply) : Answer :=
  match reply with
  | Proxied call =>
      match upstream call with
      | Responds up => Relayed (relay up (on_proxyRes (call_url call) res))
      | Fails _ headersSent =>
          match on_error headersSent with
          | Some r => Replied r
          | None => Unfinished
          end
      end
  | _ => Replied reply
  end.

(** ** The proxy's options (lines 168-174) *)

Record ProxyOptions := {
  target : string;
  changeOrigin : bool;
  secure : bool
}.

Definition options (cfg : Config) : ProxyOptions :=
  {| target := TARGET cfg; changeOrigin := true; secure := true |}.

(** ** The specification's wording, where it is compared with the code *)

Module Claimed.

(** A host name that ends in [.<region>.es.amazonaws.com]: the region is
    the label right before that ending. *)
Fixpoint region_suffix (host : string) : option string :=
  match host with
  | EmptyString => None
  | String c t =>
      match region_suffix t with
      | Some r => Some r
      | None =>
          if Re.is_dot c then
            let '(lab, rest) := Re.label_run t in
            if negb (String.eqb lab "") && String.eqb rest ".es.amazonaws.com"
            then Some lab else None
          else None
      end
  end.

(** A request path with a static-asset suffix: it ends in [.css], [.js],
    [.img] or [.font]. *)
Definition static_suffix (url : string) : bool :=
  let path := path_of url in
  Js.ends_with ".css" path || Js.ends_with ".js" path ||
  Js.ends_with ".img" path || Js.ends_with ".font" path.

End Claimed.

(** A command line with no option. *)
Definition bare (pos : list string) : Cli :=
  {| flag_b := None; flag_p := None; flag_r := None; flag_u := None;
     flag_a := None; flag_s := None; flag_H := None; flag_l := None;
     positional := pos |}.

Definition with_positional (cli : Cli) (pos : list string) : Cli :=
  {| flag_b := flag_b cli; flag_p := flag_p cli; flag_r := flag_r cli;
     flag_u := flag_u cli; flag_a := flag_a cli; flag_s := flag_s cli;
     flag_H := flag_H cli; flag_l := flag_l cli; positional := pos |}.

(** ** The stages of the pipeline, named

    The conditions under which a request leaves the stack early, and the
    request as the body parser hands it on. *)

Section Stages.

Context (P : Platform).

(** The body is longer than the limit. *)
Definition oversize (cfg : Config) (req : Request) : bool :=
  match payload req with
  | Some b => too_large (body_limit P (argv_l (ARGV cfg))) b
  | None => false
  end.

Definition parsed (req : Request) : Request :=
  match payload req with
  | Some b => set_body req (Buffer b)
  | None => req
  end.

(** The health route is registered and takes the request. *)
Definition health_hit (cfg : Config) (req : Request) : bool :=
  Js.truthy (argv_H (ARGV cfg)) &&
  ((String.eqb (method req) "GET" || String.eqb (method req) "HEAD")
   && route_match P (Js.key (argv_H (ARGV cfg))) (path_of (url req))).

(** The last stage alone. *)
Definition forward (cfg : Config) (w : World) (req : Request)
  : Reply * list Event :=
  run [sign_and_forward P (ENDPOINT cfg) (REGION cfg)] w req.

End Stages.

(** ** What the pipeline expects of the signer

    [SignatureV4.sign] leaves a content hash that the request already
    carries as it is. *)
Definition signer_keeps_content_hash (P : Platform) : Prop :=
  forall region service c request signed,
    signer_sign P region service c request = Ok signed ->
    signed !! "x-amz-content-sha256"
    = sr_headers request !! "x-amz-content-sha256".

(** The request carries no Basic-Auth credentials, or credentials that the
    authorizer turns down. *)
Definition unauthenticated (P : Platform) (users : Users) (req : Request)
  : Prop :=
  match parse_basic P (js_get (headers req) "authorization") with
  | None => True
  | Some (name, pass) => authorizer P users name pass = Reject
  end.

(** The request passes every gate before the signer: the body is within
    the limit, the credentials resolve, the health route does not take it
    and, with Basic-Auth on, the authorizer accepts it. *)
Definition reaches_signer (P : Platform) (cfg : Config) (env : ProcessEnv)
    (w : World) (req : Request) : Prop :=
  oversize P cfg req = false /\
  (exists c, await_credentials w 0 = Ok c) /\
  health_hit P cfg req = false /\
  match basic_auth_users (ARGV cfg) env with
  | None => True
  | Some users =>
      exists name pass,
        parse_basic P (js_get (headers req) "authorization") = Some (name, pass)
        /\ authorizer P users name pass = Accept
  end.

(** ** A platform to run the pipeline on

    Stand-ins for the libraries, enough to evaluate the pipeline on
    examples: the digest is replaced by a tally of the bytes of the body,
    the signer adds a date and an authorization header and, with a session
    token, the security token. *)

Module Demo.

Fixpoint tally (b : list byte) : string :=
  match b with
  | [] => ""
  | _ :: t => String "#" (tally t)
  end.

Definition digest (b : list byte) : string := "digest:" +:+ tally b.

Definition parse (s : string) : option N :=
  if String.eqb s "10000kb" then Some 10240000%N
  else if String.eqb s "100kb" then Some 102400%N
  else if String.eqb s "4b" then Some 4%N
  else None.

Definition decode (h : option string) : option (string * string) :=
  match h with
  | Some v =>
      if String.eqb v "Basic cm9vdDpodW50ZXIy" then Some ("root", "hunter2")
      else if String.eqb v "Basic YWxpY2U6c2VjcmV0" then Some ("alice", "secret")
      else None
  | None => None
  end.

Definition check (users : Users) (name pass : string) : AuthResult :=
  match users !! name with
  | Some (Some p) => if String.eqb p pass then Accept else Reject
  | Some None => Fault "The first argument must be of type string"
  | None => Reject
  end.

Definition sign (region service : string) (c : CredentialSet)
    (r : SignRequest) : result (gmap string string) :=
  let hs := <["x-amz-date" := "20260101T000000Z"]> (sr_headers r) in
  let hs := match sessionToken c with
            | Some t => <["x-amz-security-token" := t]> hs
            | None => hs
            end in
  Ok (<["authorization" :=
          "AWS4-HMAC-SHA256 Credential=" +:+ accessKeyId c +:+ "/" +:+
          region +:+ "/" +:+ service +:+ "/aws4_request"]> hs).

Definition platform : Platform :=
  {| sha256_hex := digest;
     bytes_parse := parse;
     route_match := String.eqb;
     parse_basic := decode;
     authorizer := check;
     signer_sign := sign |}.

Definition key : CredentialSet :=
  {| accessKeyId := "AKIDEXAMPLE"; secretAccessKey := "secret";
     sessionToken := None |}.

(** The credentials resolve. *)
Definition fine : World := {| await_credentials := fun _ => Ok key |}.

(** The credentials cannot be resolved. *)
Definition expired : World :=
  {| await_credentials := fun _ => Throw "Token is expired" |}.

Definition request (m u : string) (hs : Headers)
    (p : option (list byte)) : Request :=
  {| method := m; url := u; headers := hs; payload := p; body := Undefined |}.

(** The configuration of
    [node index.js https://search-prod.us-west-2.es.amazonaws.com]
    with the given health path and limit. *)
Definition cli (H l : option string) : Cli :=
  {| flag_b := None; flag_p := None; flag_r := None; flag_u := None;
     flag_a := None; flag_s := None; flag_H := H; flag_l := l;
     positional := ["https://search-prod.us-west-2.es.amazonaws.com"] |}.

Definition config (H l : option string) (env : ProcessEnv) : Config :=
  match configure (cli H l) env with
  | Ready cfg => cfg
  | Uncaught _ _ =>
      {| ARGV := parse_argv (cli H l) env; ENDPOINT := ""; REGION := "";
         TARGET := ""; PROFILE := None |}
  end.

(** The environment under which Basic-Auth is on, with the pair
    root/hunter2. *)
Definition auth_env : ProcessEnv :=
  <["USER" := "root"]> (<["PASSWORD" := "hunter2"]> ∅).

(** A provider chain whose first resolution fails and whose later ones
    succeed, and an identity service that answers. *)
Definition flaky : Init.Cloud :=
  {| Init.resolve := fun _ n =>
       match n with
       | O => Throw "The SSO session has expired"
       | S _ => Ok key
       end;
     Init.get_caller_identity := fun _ _ => Ok "123456789012" |}.

(** [node index.js -u alice -a secret <endpoint>] *)
Definition cli_with_auth : Cli :=
  {| flag_b := None; flag_p := None; flag_r := None;
     flag_u := Some "alice"; flag_a := Some "secret"; flag_s := None;
     flag_H := None; flag_l := None;
     positional := ["https://search-prod.us-west-2.es.amazonaws.com"] |}.

End Demo.

(** ** Start of the server (lines 293-331)

    [initializeCredentials().then(...)]: once the credentials are
    validated the server listens and the addresses are printed. A failed
    initialisation has already left through [process.exit(1)], so nothing
    of the [then] branch runs. *)

Module Boot.

Inductive Event :=
| Init (e : Init.Event)                   (* a step of initializeCredentials *)
| Listen (port address : option string)   (* http.createServer(app).listen *)
| Banner                                  (* console.log(figlet.textSync(...)) *)
| Console (msg : string).                 (* console.log *)

(** The body of the [then] callback. *)
Definition announce (cfg : Config) : list Event :=
  let BIND_ADDRESS := Js.key (argv_b (ARGV cfg)) in
  let PORT := Js.key (argv_p (ARGV cfg)) in
  ([Listen (argv_p (ARGV cfg)) (argv_b (ARGV cfg))]
   ++ (if Js.truthy (argv_s (ARGV cfg)) then [] else [Banner])
   ++ [Console ("AWS ES cluster available at http://" +:+ BIND_ADDRESS +:+
                ":" +:+ PORT);
       Console ("OpenSearch Dashboards available at http://" +:+ BIND_ADDRESS
                +:+ ":" +:+ PORT +:+ "/_dashboards")]
   ++ (if Js.truthy (argv_H (ARGV cfg))
       then [Console ("Health endpoint enabled at http://" +:+ BIND_ADDRESS
                      +:+ ":" +:+ PORT +:+ Js.key (argv_H (ARGV cfg)))]
       else []))%list.

Definition main (cfg : Config) (cloud : Init.Cloud) : list Event :=
  match Init.initializeCredentials (PROFILE cfg) (REGION cfg) cloud
          Init.start with
  | (Ok _, st) => (map Init (Init.trace st) ++ announce cfg)%list
  | (Throw _, st) => map Init (Init.trace st)
  end.

(** The first character of a printed line. *)
Definition first_letter (e : Event) : option ascii :=
  match e with
  | Console (String c _) => Some c
  | _ => None
  end.

End Boot.

(** More outside worlds to run the start-up in. *)

Module Scenario.

(** Every resolution succeeds and the identity service answers. *)
Definition steady : Init.Cloud :=
  {| Init.resolve := fun _ _ => Ok Demo.key;
     Init.get_caller_identity := fun _ _ => Ok "123456789012" |}.

(** No credentials anywhere. *)
Definition barren : Init.Cloud :=
  {| Init.resolve := fun _ _ => Throw "Could not load credentials from any providers";
     Init.get_caller_identity := fun _ _ => Throw "unreachable" |}.

(** The signer refuses every request. *)
Definition refusing : Platform :=
  {| sha256_hex := Demo.digest;
     bytes_parse := Demo.parse;
     route_match := String.eqb;
     parse_basic := Demo.decode;
     authorizer := Demo.check;
     signer_sign := fun _ _ _ _ => Throw "signing failed" |}.

End Scenario.

(** * Properties *)

(** ** Strings *)

Lemma strip_prefix_app p s : Js.strip_prefix p (p +:+ s) = Some s.
Proof.
  induction p as [|a p IH]; simpl; [reflexivity|].
  now rewrite Ascii.eqb_refl.
Qed.

Lemma strip_prefix_inv p : forall s r, Js.strip_prefix p s = Some r -> s = p +:+ r.
Proof.
  induction p as [|a p IH]; intros s r; simpl.
  - now intros [= ->].
  - destruct s as [|c s]; [discriminate|].
    destruct (Ascii.eqb a c) eqn:E; [|discriminate].
    apply Ascii.eqb_eq in E as ->. intros Hr. now rewrite (IH _ _ Hr).
Qed.

Lemma append_cons (c : ascii) (a b : string) :
  String c a +:+ b = String c (a +:+ b).
Proof. reflexivity. Qed.

(** ** The region pattern *)

Lemma label_run_app lab : forall rest,
  Re.dotless lab = true ->
  Re.label_run (lab +:+ String "." rest) = (lab, String "." rest).
Proof.
  induction lab as [|c lab IH]; intros rest Hl; simpl in *.
  - reflexivity.
  - apply andb_true_iff in Hl as [Hc Hl].
    apply negb_true_iff in Hc. rewrite Hc, (IH _ Hl). reflexivity.
Qed.

Lemma label_run_inv : forall s lab rest,
  Re.label_run s = (lab, rest) ->
  s = lab +:+ rest /\ Re.dotless lab = true.
Proof.
  induction s as [|c s IH]; intros lab rest; simpl.
  - intros [= <- <-]. now split.
  - destruct (Re.is_dot c) eqn:Hc.
    + intros [= <- <-]. now split.
    + destruct (Re.label_run s) as [l r] eqn:E. intros [= <- <-].
      destruct (IH _ _ eq_refl) as [-> Hl]. simpl. now rewrite Hc, Hl.
Qed.

(** A match at the head of the input, told by the shape of the input. *)
Lemma region_at_intro lab post :
  lab <> "" -> Re.dotless lab = true -> Re.dots_to_end post = true ->
  Re.region_at ("." +:+ lab +:+ ".es.amazonaws.com" +:+ post) = Some lab.
Proof.
  intros Hne Hl Hp. unfold Re.region_at.
  change ("." +:+ lab +:+ ".es.amazonaws.com" +:+ post)
    with (String "." (lab +:+ String "." ("es.amazonaws.com" +:+ post))).
  change (Re.is_dot ".") with true. cbv iota.
  rewrite (label_run_app _ _ Hl).
  change (String "." ("es.amazonaws.com" +:+ post))
    with (".es.amazonaws.com" +:+ post).
  rewrite strip_prefix_app, Hp.
  destruct (String.eqb lab "") eqn:E; [now apply String.eqb_eq in E|reflexivity].
Qed.

Lemma region_at_inv s lab :
  Re.region_at s = Some lab ->
  exists post, s = "." +:+ lab +:+ ".es.amazonaws.com" +:+ post /\
               lab <> "" /\ Re.dotless lab = true /\ Re.dots_to_end post = true.
Proof.
  unfold Re.region_at. destruct s as [|c t]; [discriminate|].
  destruct (Re.is_dot c) eqn:Hc; [|discriminate].
  destruct (Re.label_run t) as [l rest] eqn:E.
  destruct (Js.strip_prefix ".es.amazonaws.com" rest) as [post|] eqn:Hs;
    [|discriminate].
  destruct (negb (String.eqb l "") && Re.dots_to_end post) eqn:Hb; [|discriminate].
  intros [= ->]. apply andb_true_iff in Hb as [Hne Hp].
  apply label_run_inv in E as [-> Hl]. apply strip_prefix_inv in Hs as ->.
  unfold Re.is_dot in Hc. apply Ascii.eqb_eq in Hc as ->.
  exists post. repeat split; try assumption.
  intros ->. discriminate.
Qed.

(** The search passes over a prefix that has no dot. *)
Lemma region_match_skip pre : forall s,
  Re.dotless pre = true -> Re.region_match (pre +:+ s) = Re.region_match s.
Proof.
  induction pre as [|c pre IH]; intros s Hp; simpl in *; [reflexivity|].
  apply andb_true_iff in Hp as [Hc Hp]. apply negb_true_iff in Hc.
  rewrite Hc. now apply IH.
Qed.

Lemma region_match_head s lab :
  Re.region_at s = Some lab -> Re.region_match s = Some lab.
Proof. intros H. destruct s; simpl in *; now rewrite H. Qed.

(** A match is found exactly when the input has an occurrence somewhere. *)
Lemma region_match_found : forall s lab,
  Re.region_match s = Some lab ->
  exists pre t, s = pre +:+ t /\ Re.region_at t = Some lab.
Proof.
  induction s as [|c s IH]; intros lab.
  - simpl. discriminate.
  - cbn [Re.region_match]. destruct (Re.region_at (String c s)) as [l|] eqn:E.
    + intros [= ->]. now exists "", (String c s).
    + intros H. destruct (IH _ H) as (pre & t & -> & Ht).
      now exists (String c pre), t.
Qed.

Lemma region_match_none : forall pre t,
  Re.region_match (pre +:+ t) = None -> Re.region_at t = None.
Proof.
  induction pre as [|c pre IH]; intros t.
  - change ("" +:+ t) with t. destruct t as [|c t]; [reflexivity|].
    cbn [Re.region_match]. now destruct (Re.region_at (String c t)).
  - rewrite append_cons. cbn [Re.region_match].
    destruct (Re.region_at (String c (pre +:+ t))); [discriminate|]. apply IH.
Qed.

(** The search returns the label of the leftmost occurrence. *)
Lemma region_match_leftmost : forall s lab,
  Re.region_match s = Some lab ->
  exists pre t, s = pre +:+ t /\ Re.region_at t = Some lab /\
    forall p1 p2, pre = p1 +:+ p2 -> p2 <> "" -> Re.region_at (p2 +:+ t) = None.
Proof.
  induction s as [|c s IH]; intros lab.
  - simpl. discriminate.
  - cbn [Re.region_match]. destruct (Re.region_at (String c s)) as [l|] eqn:E.
    + intros [= ->]. exists "", (String c s). repeat split; [assumption|].
      intros [|a p1] [|b p2] Hp Hne; try discriminate. now elim Hne.
    + intros H. destruct (IH _ H) as (pre & t & -> & Ht & Hleft).
      exists (String c pre), t. repeat split; [assumption|].
      intros [|a p1] p2 Hp Hne.
      * change ("" +:+ p2) with p2 in Hp. subst p2. exact E.
      * rewrite append_cons in Hp. injection Hp as _ Hp. now apply (Hleft p1).
Qed.

(** ** Start-up *)

Lemma truthy_Some v s : v = Some s -> s <> "" -> Js.truthy v = true.
Proof.
  intros -> Hs. simpl. destruct (String.eqb s "") eqn:E; [|reflexivity].
  now apply String.eqb_eq in E.
Qed.

(** With an endpoint at hand, start-up is decided by the region. *)
Lemma configure_with_endpoint cli env ep :
  endpoint_of (parse_argv cli env) env = Some ep -> ep <> "" ->
  configure cli env =
    match resolve_region (parse_argv cli env) ep with
    | None => Uncaught [Stderr region_error] showHelp_error
    | Some region =>
        Ready {| ARGV := parse_argv cli env; ENDPOINT := ep; REGION := region;
                 TARGET := target_of ep; PROFILE := env !! "AWS_PROFILE" |}
    end.
Proof.
  intros He Hne. unfold configure. rewrite He.
  rewrite (truthy_Some _ _ eq_refl Hne). reflexivity.
Qed.

(** The target always starts with [http://] or [https://]. *)
Lemma target_has_scheme ep : Re.has_http_scheme (target_of ep) = true.
Proof.
  unfold target_of. destruct (Re.has_http_scheme ep) eqn:E; [assumption|].
  unfold Re.has_http_scheme, Js.starts_with.
  rewrite (strip_prefix_app "https://" ep). apply orb_true_r.
Qed.

(** An endpoint that carries its scheme is the target as it stands, so the
    host signed for is the target's. *)
Lemma target_of_with_scheme ep :
  Re.has_http_scheme ep = true -> target_of ep = ep.
Proof. unfold target_of. now intros ->. Qed.

(** C4 (amended). A non-empty region given by the flag or by REGION is
    used. Without one, the region is the label of the leftmost occurrence
    of [.<label>.es.amazonaws.com] anywhere in the endpoint string (label
    non-empty and free of dots, no line break after the occurrence): in
    particular the [<region>] of an endpoint in which no dot comes before
    [.<region>.es.amazonaws.com]. Start-up stops, with the region error
    printed and no configuration made, exactly when the endpoint has no
    such occurrence. *)
Theorem C4_region_resolution (cli : Cli) (env : ProcessEnv) (ep : string) :
  endpoint_of (parse_argv cli env) env = Some ep -> ep <> "" ->
  (forall r, argv_r (parse_argv cli env) = Some r -> r <> "" ->
     exists cfg, configure cli env = Ready cfg /\ REGION cfg = r) /\
  (Js.truthy (argv_r (parse_argv cli env)) = false ->
     (forall pre lab post,
        ep = pre +:+ "." +:+ lab +:+ ".es.amazonaws.com" +:+ post ->
        Re.dotless pre = true -> lab <> "" -> Re.dotless lab = true ->
        Re.dots_to_end post = true ->
        exists cfg, configure cli env = Ready cfg /\ REGION cfg = lab) /\
     (forall cfg, configure cli env = Ready cfg ->
        exists pre post,
          ep = pre +:+ "." +:+ REGION cfg +:+ ".es.amazonaws.com" +:+ post /\
          REGION cfg <> "" /\ Re.dotless (REGION cfg) = true /\
          Re.dots_to_end post = true /\
          forall p1 p2, pre = p1 +:+ p2 -> p2 <> "" ->
            Re.region_at
              (p2 +:+ "." +:+ REGION cfg +:+ ".es.amazonaws.com" +:+ post) = None) /\
     ((forall cfg, configure cli env <> Ready cfg) <->
        ~ exists pre lab post,
            ep = pre +:+ "." +:+ lab +:+ ".es.amazonaws.com" +:+ post /\
            lab <> "" /\ Re.dotless lab = true /\ Re.dots_to_end post = true) /\
     (In (Stderr region_error) (printed (configure cli env)) <->
        ~ exists pre lab post,
            ep = pre +:+ "." +:+ lab +:+ ".es.amazonaws.com" +:+ post /\
            lab <> "" /\ Re.dotless lab = true /\ Re.dots_to_end post = true)).
Proof.
  intros He Hne. rewrite (configure_with_endpoint _ _ _ He Hne).
  unfold resolve_region. split.
  - intros r Hr Hrne. rewrite (truthy_Some _ _ Hr Hrne), Hr. eauto.
  - intros Hfalsy. rewrite Hfalsy. repeat split.
    + intros pre lab post -> Hpre Hlne Hlab Hpost.
      rewrite (region_match_skip _ _ Hpre).
      rewrite (region_match_head _ _ (region_at_intro _ _ Hlne Hlab Hpost)).
      eauto.
    + intros cfg. destruct (Re.region_match ep) as [lab|] eqn:E; [|discriminate].
      intros [= <-]. cbn [REGION].
      destruct (region_match_leftmost _ _ E) as (pre & t & -> & Ht & Hleft).
      destruct (region_at_inv _ _ Ht) as (post & -> & H1 & H2 & H3).
      exists pre, post. repeat split; assumption.
    + destruct (Re.region_match ep) as [lab|] eqn:E;
        [intros Hnever; now elim (Hnever _ eq_refl)|].
      intros _ (pre & lab & post & -> & H1 & H2 & H3).
      apply region_match_none in E.
      now rewrite (region_at_intro _ _ H1 H2 H3) in E.
    + intros Hno. destruct (Re.region_match ep) as [lab|] eqn:E;
        [|discriminate].
      exfalso. apply Hno.
      destruct (region_match_found _ _ E) as (pre & t & -> & Ht).
      destruct (region_at_inv _ _ Ht) as (post & -> & H1 & H2 & H3).
      now exists pre, lab, post.
    + destruct (Re.region_match ep) as [lab|] eqn:E; [intros []|].
      intros _ (pre & lab & post & -> & H1 & H2 & H3).
      apply region_match_none in E.
      now rewrite (region_at_intro _ _ H1 H2 H3) in E.
    + intros Hno. destruct (Re.region_match ep) as [lab|] eqn:E;
        [|now left].
      exfalso. apply Hno.
      destruct (region_match_found _ _ E) as (pre & t & -> & Ht).
      destruct (region_at_inv _ _ Ht) as (post & -> & H1 & H2 & H3).
      now exists pre, lab, post.
Qed.

Lemma C4_region_resolution_witness :
  exists cfg,
    configure (bare ["search-prod.us-west-2.es.amazonaws.com"]) ∅ = Ready cfg /\
    REGION cfg = "us-west-2".
Proof.
  destruct (C4_region_resolution
              (bare ["search-prod.us-west-2.es.amazonaws.com"]) ∅
              "search-prod.us-west-2.es.amazonaws.com")
    as [_ Hinfer]; [vm_compute; reflexivity|discriminate|].
  destruct Hinfer as [Hlabel _]; [vm_compute; reflexivity|].
  apply (Hlabel "search-prod" "us-west-2" "");
    [reflexivity|reflexivity|discriminate|reflexivity|reflexivity].
Defined.

(** C4, as the claim words it, fails: the endpoint of a China-region domain
    is a host name that does not end in [.<region>.es.amazonaws.com], no
    region is given, and start-up does not stop but resolves the region
    [cn-north-1], with nothing printed. *)
Lemma C4_counterexample_suffix_not_required :
  let ep := "search-x.cn-north-1.es.amazonaws.com.cn" in
  argv_r (parse_argv (bare [ep]) ∅) = None /\
  Url.hostname (target_of ep) = Some ep /\
  Claimed.region_suffix ep = None /\
  printed (configure (bare [ep]) ∅) = [] /\
  exists cfg, configure (bare [ep]) ∅ = Ready cfg /\ REGION cfg = "cn-north-1".
Proof.
  repeat split; try (vm_compute; reflexivity).
  eexists. split; vm_compute; reflexivity.
Qed.

(** The leftmost occurrence wins over the one the host name ends in. *)
Example region_leftmost_occurrence :
  Claimed.region_suffix "a.b.es.amazonaws.com.c.es.amazonaws.com" = Some "c" /\
  Re.region_match "a.b.es.amazonaws.com.c.es.amazonaws.com" = Some "b".
Proof. split; reflexivity. Qed.

(** ** The pipeline, stage by stage *)

Section PipelineFacts.

Context (P : Platform).

Lemma run_cons (m : Middleware) rest w req :
  run (m :: rest) w req =
    match m w req with
    | (Next req', t) =>
        let '(reply, t') := run rest w req' in (reply, (t ++ t')%list)
    | (NextErr e, t) => (error_page e, t)
    | (End reply, t) => (reply, t)
    end.
Proof. reflexivity. Qed.

(** What the stack does with a request, in the order of its stages. *)
Lemma handle_eq cfg env w req :
  handle P cfg env w req =
    if oversize P cfg req then (ErrorPage 413, [])
    else
      match await_credentials w 0 with
      | Throw _ => (ErrorPage 500, [CredentialsAwaited])
      | Ok _ =>
          if health_hit P cfg req
          then (Sent 200 [("Content-Type", "text/plain")] "ok",
                [CredentialsAwaited])
          else
            let go :=
              let '(reply, t) := forward P cfg w (parsed req) in
              (reply, CredentialsAwaited :: t) in
            match basic_auth_users (ARGV cfg) env with
            | None => go
            | Some users =>
                match parse_basic P (js_get (headers req) "authorization") with
                | None => (unauthorized, [CredentialsAwaited])
                | Some (name, pass) =>
                    match authorizer P users name pass with
                    | Accept => go
                    | Reject => (unauthorized, [CredentialsAwaited])
                    | Fault _ => (ErrorPage 500, [CredentialsAwaited])
                    end
                end
            end
      end.
Proof.
  unfold handle, app, oversize, health_hit, forward, parsed.
  cbn [List.app]. rewrite run_cons. unfold bodyParser_raw at 1.
  destruct (payload req) as [b|];
    [destruct (too_large _ b); [reflexivity|]|];
    (rewrite run_cons; unfold getCredentials at 1;
     destruct (await_credentials w 0); [|reflexivity];
     destruct (Js.truthy (argv_H (ARGV cfg))); cbn [List.app andb];
     [rewrite run_cons; unfold health_route at 1; cbn [method url set_body];
      destruct (_ && _); [reflexivity|] | ];
     (destruct (basic_auth_users (ARGV cfg) env); cbn [List.app];
      [rewrite run_cons; unfold basicAuth at 1; cbn [headers set_body];
       destruct (parse_basic _ _) as [[? ?]|]; [|reflexivity];
       destruct (authorizer _ _ _ _); try reflexivity | ];
      destruct (run _ _ _); reflexivity)).
Qed.

End PipelineFacts.

Section SignAndForward.

Context (P : Platform).

Lemma forward_eq cfg w req :
  forward P cfg w req =
    match Url.hostname (ENDPOINT cfg) with
    | None => (internal_error, [])
    | Some host =>
        let request := sign_request P host req in
        match
          match await_credentials w 1 with
          | Ok c => signer_sign P (REGION cfg) "es" c request
          | Throw m => Throw m
          end
        with
        | Throw _ => (internal_error, [Signed request])
        | Ok sh =>
            (Proxied (proxy_call req sh),
             [Signed request; ProxyWeb (proxy_call req sh)])
        end
    end.
Proof.
  unfold forward. rewrite run_cons. unfold sign_and_forward.
  destruct (Url.hostname (ENDPOINT cfg)); [|reflexivity].
  cbv zeta.
  destruct (match await_credentials w 1 with
            | Ok c => signer_sign P (REGION cfg) "es" c _
            | Throw m => Throw m end); reflexivity.
Qed.

(** The last stage signs for the host of the endpoint, and calls the proxy
    only with what the signer returned. *)
Lemma forward_signed cfg w req reply t r :
  forward P cfg w req = (reply, t) -> In (Signed r) t ->
  exists host, Url.hostname (ENDPOINT cfg) = Some host /\
               r = sign_request P host req.
Proof.
  rewrite forward_eq. destruct (Url.hostname (ENDPOINT cfg)) as [host|].
  - cbv zeta.
    destruct (match await_credentials w 1 with
              | Ok c => signer_sign P (REGION cfg) "es" c _
              | Throw m => Throw m end);
      intros [= <- <-] Hin; simpl in Hin;
      (destruct Hin as [[= <-]|Hin]; [now exists host|]);
      try contradiction.
    destruct Hin as [Hin|[]]. discriminate.
  - intros [= <- <-] [].
Qed.

Lemma forward_proxied cfg w req reply t call :
  forward P cfg w req = (reply, t) -> In (ProxyWeb call) t ->
  exists host c sh,
    Url.hostname (ENDPOINT cfg) = Some host /\
    await_credentials w 1 = Ok c /\
    signer_sign P (REGION cfg) "es" c (sign_request P host req) = Ok sh /\
    call = proxy_call req sh /\ reply = Proxied call.
Proof.
  rewrite forward_eq. destruct (Url.hostname (ENDPOINT cfg)) as [host|].
  - cbv zeta. destruct (await_credentials w 1) as [c|m].
    + destruct (signer_sign P (REGION cfg) "es" c _) as [sh|m] eqn:Es;
        intros [= <- <-] Hin; simpl in Hin.
      * destruct Hin as [Hin|[[= <-]|[]]]; [discriminate|].
        now exists host, c, sh.
      * destruct Hin as [Hin|[]]. discriminate.
    + intros [= <- <-] [Hin|[]]. discriminate.
  - intros [= <- <-] [].
Qed.

Lemma forward_no_gate cfg w req reply t :
  forward P cfg w req = (reply, t) -> ~ In CredentialsAwaited t.
Proof.
  rewrite forward_eq. destruct (Url.hostname (ENDPOINT cfg)) as [host|].
  - cbv zeta.
    destruct (match await_credentials w 1 with
              | Ok c => signer_sign P (REGION cfg) "es" c _
              | Throw m => Throw m end);
      intros [= <- <-] Hin; simpl in Hin;
      repeat (destruct Hin as [Hin|Hin]; [discriminate|]); contradiction.
  - intros [= <- <-] [].
Qed.

(** A request that passes every gate is handed to the last stage. *)
Lemma handle_reaches cfg env w req :
  reaches_signer P cfg env w req ->
  handle P cfg env w req =
    let '(reply, t) := forward P cfg w (parsed req) in
    (reply, CredentialsAwaited :: t).
Proof.
  intros (Hsize & [c Hc] & Hh & Hauth). rewrite handle_eq, Hsize, Hc, Hh.
  cbv zeta. destruct (basic_auth_users (ARGV cfg) env) as [users|];
    [|reflexivity].
  destruct Hauth as (name & pass & -> & ->). reflexivity.
Qed.

(** Any other request is answered by a gate, with at most the credential
    resolution on record. *)
Lemma handle_inv cfg env w req reply tr :
  handle P cfg env w req = (reply, tr) ->
  (~ reaches_signer P cfg env w req /\ (tr = [] \/ tr = [CredentialsAwaited]))
  \/ (reaches_signer P cfg env w req /\
      exists t, forward P cfg w (parsed req) = (reply, t) /\
                tr = CredentialsAwaited :: t).
Proof.
  rewrite handle_eq. unfold reaches_signer.
  destruct (oversize P cfg req).
  { intros [= <- <-]. left. split; [intros (? & _); discriminate|now left]. }
  destruct (await_credentials w 0) as [c|m].
  2:{ intros [= <- <-]. left.
      split; [intros (_ & [? ?] & _); discriminate|now right]. }
  destruct (health_hit P cfg req).
  { intros [= <- <-]. left.
    split; [intros (_ & _ & ? & _); discriminate|now right]. }
  cbv zeta.
  destruct (basic_auth_users (ARGV cfg) env) as [users|].
  - destruct (parse_basic P (js_get (headers req) "authorization"))
      as [[name pass]|].
    + destruct (authorizer P users name pass) eqn:Ea.
      * destruct (forward P cfg w (parsed req)) as [r t] eqn:Ef.
        intros [= <- <-]. right. split; [|now exists t].
        repeat split; eauto.
      * intros [= <- <-]. left. split; [|now right].
        intros (_ & _ & _ & n & p & [= <- <-] & Hacc). congruence.
      * intros [= <- <-]. left. split; [|now right].
        intros (_ & _ & _ & n & p & [= <- <-] & Hacc). congruence.
    + intros [= <- <-]. left. split; [|now right].
      intros (_ & _ & _ & n & p & Hn & _). discriminate.
  - destruct (forward P cfg w (parsed req)) as [r t] eqn:Ef.
    intros [= <- <-]. right. split; [|now exists t].
    repeat split; eauto.
Qed.

(** Signing and forwarding happen only past every gate. *)
Lemma handle_signed cfg env w req reply tr r :
  handle P cfg env w req = (reply, tr) -> In (Signed r) tr ->
  reaches_signer P cfg env w req /\
  exists host, Url.hostname (ENDPOINT cfg) = Some host /\
               r = sign_request P host (parsed req).
Proof.
  intros Hh Hin. destruct (handle_inv _ _ _ _ _ _ Hh)
    as [[_ [->| ->]]|(Hr & t & Hf & ->)].
  - destruct Hin.
  - destruct Hin as [Hin|[]]. discriminate.
  - split; [assumption|]. destruct Hin as [Hin|Hin]; [discriminate|].
    eapply forward_signed; eassumption.
Qed.

Lemma handle_proxied cfg env w req reply tr call :
  handle P cfg env w req = (reply, tr) -> In (ProxyWeb call) tr ->
  reaches_signer P cfg env w req /\
  exists host c sh,
    Url.hostname (ENDPOINT cfg) = Some host /\
    await_credentials w 1 = Ok c /\
    signer_sign P (REGION cfg) "es" c (sign_request P host (parsed req))
    = Ok sh /\
    call = proxy_call (parsed req) sh /\ reply = Proxied call.
Proof.
  intros Hh Hin. destruct (handle_inv _ _ _ _ _ _ Hh)
    as [[_ [->| ->]]|(Hr & t & Hf & ->)].
  - destruct Hin.
  - destruct Hin as [Hin|[]]. discriminate.
  - split; [assumption|]. destruct Hin as [Hin|Hin]; [discriminate|].
    eapply forward_proxied; eassumption.
Qed.

End SignAndForward.

(** ** Headers *)

Section HeaderFacts.

Context (P : Platform).

Ltac included :=
  unfold sign_request; cbn [sr_headers headersToInclude foldl];
  repeat match goal with
         | |- context [match js_get ?hs ?n with _ => _ end] =>
             destruct (js_get hs n)
         end;
  rewrite ?lookup_insert_ne by discriminate.

(** The request given to the signer carries the digest of the body it is
    given, and the host. *)
Lemma sign_request_hash host req :
  sr_headers (sign_request P host req) !! "x-amz-content-sha256"
  = Some (sha256_hex P (body_bytes (body req))).
Proof. included; apply lookup_insert_eq. Qed.

Lemma sign_request_host host req :
  sr_headers (sign_request P host req) !! "Host" = Some host.
Proof. included; apply lookup_insert_eq. Qed.

Lemma sign_request_body host req :
  sr_body (sign_request P host req) = body_bytes (body req).
Proof. reflexivity. Qed.

(** The handler sets the content hash to what the signer returned. *)
Lemma signed_headers_hash (sh : gmap string string) (hs : Headers) :
  js_get (signed_headers sh hs) "x-amz-content-sha256"
  = sh !! "x-amz-content-sha256".
Proof.
  unfold js_get, signed_headers.
  destruct (Js.truthy (sh !! "x-amz-security-token")).
  - rewrite lookup_insert_ne by discriminate. now rewrite lookup_insert_eq.
  - now rewrite lookup_insert_eq.
Qed.

End HeaderFacts.

(** ** The claims on the request pipeline *)

(** C1. For a request whose body is within the limit, whenever the pipeline
    calls the proxy, the call carries the body parser's buffer as the
    stream to send (so the bytes sent upstream are that buffer, not a
    second reading of the request), and the x-amz-content-sha256 header set
    on the forwarded request is the hex digest of exactly those bytes,
    given that the signer leaves the content hash it is handed as it is. *)
Theorem C1_content_hash_of_forwarded_body
    (P : Platform) (cfg : Config) (env : ProcessEnv) (w : World)
    (req : Request) (b : list byte) (reply : Reply) (tr : list Event)
    (call : ProxyCall) :
  signer_keeps_content_hash P ->
  payload req = Some b ->
  oversize P cfg req = false ->
  handle P cfg env w req = (reply, tr) ->
  In (ProxyWeb call) tr ->
  call_buffer call = Some b /\
  forwarded_bytes (parsed req) call = b /\
  js_get (call_headers call) "x-amz-content-sha256"
  = Some (sha256_hex P (forwarded_bytes (parsed req) call)).
Proof.
  intros Hkeep Hb _ Hh Hin.
  destruct (handle_proxied _ _ _ _ _ _ _ _ Hh Hin)
    as (_ & host & c & sh & _ & _ & Hs & -> & _).
  assert (Hbuf : call_buffer (proxy_call (parsed req) sh) = Some b).
  { unfold parsed. rewrite Hb. reflexivity. }
  assert (Hbytes : forwarded_bytes (parsed req) (proxy_call (parsed req) sh) = b).
  { unfold forwarded_bytes. now rewrite Hbuf. }
  repeat split; [assumption..|].
  rewrite Hbytes. cbn [proxy_call call_headers set_headers headers].
  rewrite signed_headers_hash, (Hkeep _ _ _ _ _ Hs), sign_request_hash.
  unfold parsed. rewrite Hb. reflexivity.
Qed.

Lemma demo_signer_keeps : signer_keeps_content_hash Demo.platform.
Proof.
  intros region service c r sh. cbn [signer_sign Demo.platform].
  unfold Demo.sign. intros [= <-].
  rewrite lookup_insert_ne by discriminate.
  destruct (sessionToken c); rewrite ?lookup_insert_ne by discriminate;
    reflexivity.
Qed.

Lemma C1_content_hash_of_forwarded_body_witness :
  exists call,
    call_buffer call = Some [x00; x01; x02; x03] /\
    js_get (call_headers call) "x-amz-content-sha256" = Some "digest:####".
Proof.
  pose (req := Demo.request "POST" "/_bulk" ∅ (Some [x00; x01; x02; x03])).
  pose (cfg := Demo.config None (Some "4b") ∅).
  pose (sh := match Demo.sign "us-west-2" "es" Demo.key
                      (sign_request Demo.platform
                         "search-prod.us-west-2.es.amazonaws.com" (parsed req))
              with Ok sh => sh | Throw _ => ∅ end).
  pose (call := proxy_call (parsed req) sh).
  destruct (C1_content_hash_of_forwarded_body Demo.platform cfg ∅ Demo.fine req
              [x00; x01; x02; x03] (Proxied call)
              [CredentialsAwaited;
               Signed (sign_request Demo.platform
                         "search-prod.us-west-2.es.amazonaws.com" (parsed req));
               ProxyWeb call] call)
    as (Hbuf & Hbytes & Hhash).
  - exact demo_signer_keeps.
  - reflexivity.
  - vm_compute. reflexivity.
  - vm_compute. reflexivity.
  - right. right. left. reflexivity.
  - exists call. split; [exact Hbuf|]. rewrite Hhash, Hbytes. reflexivity.
Defined.

(** A request with no body is hashed as the empty body and handed to the
    proxy with no stream of its own: the proxy reads the request itself. *)
Lemma bodyless_request_forwarded
    (P : Platform) (cfg : Config) (env : ProcessEnv) (w : World)
    (req : Request) (reply : Reply) (tr : list Event) (call : ProxyCall) :
  signer_keeps_content_hash P ->
  payload req = None -> body req = Undefined ->
  handle P cfg env w req = (reply, tr) ->
  In (ProxyWeb call) tr ->
  call_buffer call = None /\
  forwarded_bytes (parsed req) call = [] /\
  js_get (call_headers call) "x-amz-content-sha256" = Some (sha256_hex P []).
Proof.
  intros Hkeep Hp Hb Hh Hin.
  destruct (handle_proxied _ _ _ _ _ _ _ _ Hh Hin)
    as (_ & host & c & sh & _ & _ & Hs & -> & _).
  unfold parsed in *. rewrite Hp in *.
  unfold forwarded_bytes. cbn [proxy_call call_buffer call_headers
                                 set_headers headers].
  rewrite Hb, Hp. repeat split.
  rewrite signed_headers_hash, (Hkeep _ _ _ _ _ Hs), sign_request_hash, Hb.
  reflexivity.
Qed.

(** A request that passes every gate is forwarded once the endpoint parses
    and the signer succeeds. *)
Lemma handle_forwards
    (P : Platform) (cfg : Config) (env : ProcessEnv) (w : World)
    (req : Request) host c sh :
  reaches_signer P cfg env w req ->
  Url.hostname (ENDPOINT cfg) = Some host ->
  await_credentials w 1 = Ok c ->
  signer_sign P (REGION cfg) "es" c (sign_request P host (parsed req)) = Ok sh ->
  handle P cfg env w req =
    (Proxied (proxy_call (parsed req) sh),
     [CredentialsAwaited; Signed (sign_request P host (parsed req));
      ProxyWeb (proxy_call (parsed req) sh)]).
Proof.
  intros Hr Hhost Hc Hs. rewrite (handle_reaches _ _ _ _ _ Hr), forward_eq.
  rewrite Hhost. cbv zeta. rewrite Hc, Hs. reflexivity.
Qed.

(** C2 (amended). A GET or HEAD request that the health route matches, with
    a body within the limit, first goes through the credential resolution
    every request goes through; when that succeeds the answer is 200 with
    the plain text ok, when it fails the answer is the error page. Either
    way nothing is signed and the proxy is not called. *)
Theorem C2_health_route
    (P : Platform) (cfg : Config) (env : ProcessEnv) (w : World)
    (req : Request) :
  health_hit P cfg req = true ->
  oversize P cfg req = false ->
  (forall c, await_credentials w 0 = Ok c ->
     handle P cfg env w req
     = (Sent 200 [("Content-Type", "text/plain")] "ok", [CredentialsAwaited]))
  /\ (forall m, await_credentials w 0 = Throw m ->
        handle P cfg env w req = (ErrorPage 500, [CredentialsAwaited]))
  /\ (forall reply tr, handle P cfg env w req = (reply, tr) ->
        In CredentialsAwaited tr /\
        (forall r, ~ In (Signed r) tr) /\
        (forall call, ~ In (ProxyWeb call) tr)).
Proof.
  intros Hh Hsize. rewrite handle_eq, Hsize, Hh. repeat split.
  - intros c ->. reflexivity.
  - intros m ->. reflexivity.
  - destruct (await_credentials w 0); injection H as <- <-; now left.
  - intros r. destruct (await_credentials w 0); injection H as <- <-;
      intros [Hin|[]]; discriminate.
  - intros r. destruct (await_credentials w 0); injection H as <- <-;
      intros [Hin|[]]; discriminate.
Qed.

Lemma C2_health_route_witness :
  handle Demo.platform (Demo.config (Some "/health") None ∅) ∅ Demo.fine
    (Demo.request "GET" "/health" ∅ None)
  = (Sent 200 [("Content-Type", "text/plain")] "ok", [CredentialsAwaited]).
Proof.
  destruct (C2_health_route Demo.platform (Demo.config (Some "/health") None ∅)
              ∅ Demo.fine (Demo.request "GET" "/health" ∅ None))
    as (Hok & _ & _); [vm_compute; reflexivity..|].
  apply (Hok Demo.key). reflexivity.
Defined.

(** C2, as the claim words it, fails: a GET to the configured health path
    does trigger the credential resolution, and when that fails the answer
    is the error page and not 200 ok. *)
Lemma C2_counterexample_health_resolves_credentials :
  let cfg := Demo.config (Some "/health") None ∅ in
  let req := Demo.request "GET" "/health" ∅ None in
  argv_H (ARGV cfg) = Some (path_of (url req)) /\
  handle Demo.platform cfg ∅ Demo.expired req
  = (ErrorPage 500, [CredentialsAwaited]) /\
  handle Demo.platform cfg ∅ Demo.fine req
  = (Sent 200 [("Content-Type", "text/plain")] "ok", [CredentialsAwaited]).
Proof. repeat split; vm_compute; reflexivity. Qed.

(** A request to the health path by another method is not answered by the
    health route. *)
Example health_route_is_a_get_route :
  handle Demo.platform (Demo.config (Some "/health") None ∅) ∅ Demo.expired
    (Demo.request "POST" "/health" ∅ None)
  = (ErrorPage 500, [CredentialsAwaited]) /\
  exists call tr,
    handle Demo.platform (Demo.config (Some "/health") None ∅) ∅ Demo.fine
      (Demo.request "POST" "/health" ∅ None)
    = (Proxied call, tr).
Proof. split; [vm_compute; reflexivity|]. eexists _, _. vm_compute. reflexivity. Qed.

(** C6 (amended). With Basic-Auth on, a request that the health route does
    not take and that carries no credentials, or credentials the authorizer
    turns down, is never signed nor forwarded; when its body is within the
    limit and the credential resolution succeeds it is answered with the
    401 challenge, and otherwise with the error of the earlier stage. *)
Theorem C6_unauthenticated_never_signed
    (P : Platform) (cfg : Config) (env : ProcessEnv) (w : World)
    (req : Request) (users : Users) :
  basic_auth_users (ARGV cfg) env = Some users ->
  health_hit P cfg req = false ->
  unauthenticated P users req ->
  (oversize P cfg req = false ->
   forall c, await_credentials w 0 = Ok c ->
     handle P cfg env w req = (unauthorized, [CredentialsAwaited]))
  /\ (oversize P cfg req = true ->
      handle P cfg env w req = (ErrorPage 413, []))
  /\ (oversize P cfg req = false ->
      forall m, await_credentials w 0 = Throw m ->
        handle P cfg env w req = (ErrorPage 500, [CredentialsAwaited]))
  /\ (forall reply tr, handle P cfg env w req = (reply, tr) ->
        (forall r, ~ In (Signed r) tr) /\
        (forall call, ~ In (ProxyWeb call) tr)).
Proof.
  intros Hu Hh Hun.
  assert (Hnot : ~ reaches_signer P cfg env w req).
  { intros (_ & _ & _ & Hacc). rewrite Hu in Hacc.
    destruct Hacc as (name & pass & Hp & Ha). unfold unauthenticated in Hun.
    rewrite Hp, Ha in Hun. discriminate. }
  repeat split.
  - intros Hsize c Hc. rewrite handle_eq, Hsize, Hc, Hh, Hu.
    unfold unauthenticated in Hun.
    destruct (parse_basic P (js_get (headers req) "authorization"))
      as [[name pass]|]; [|reflexivity].
    now rewrite Hun.
  - intros Hsize. now rewrite handle_eq, Hsize.
  - intros Hsize m Hm. now rewrite handle_eq, Hsize, Hm.
  - intros r Hin. now destruct (handle_signed _ _ _ _ _ _ _ _ H Hin).
  - intros call Hin. now destruct (handle_proxied _ _ _ _ _ _ _ _ H Hin).
Qed.

Lemma C6_unauthenticated_never_signed_witness :
  handle Demo.platform (Demo.config None None Demo.auth_env) Demo.auth_env
    Demo.fine (Demo.request "GET" "/_search" ∅ None)
  = (Sent 401 [("WWW-Authenticate", "Basic")] "", [CredentialsAwaited]).
Proof.
  destruct (C6_unauthenticated_never_signed Demo.platform
              (Demo.config None None Demo.auth_env) Demo.auth_env Demo.fine
              (Demo.request "GET" "/_search" ∅ None)
              {[ "root" := Some "hunter2" ]})
    as (Hchallenge & _); [vm_compute; reflexivity..|].
  apply (Hchallenge eq_refl Demo.key). reflexivity.
Defined.

(** C6, as the claim words it, fails: with Basic-Auth on, a request that is
    not for the health path and carries no credentials gets the error page,
    not the 401 challenge, when the credential resolution of the stage
    before fails. *)
Lemma C6_counterexample_credential_gate_first :
  let cfg := Demo.config None None Demo.auth_env in
  let req := Demo.request "GET" "/_search" ∅ None in
  basic_auth_users (ARGV cfg) Demo.auth_env = Some {[ "root" := Some "hunter2" ]} /\
  argv_H (ARGV cfg) = None /\
  parse_basic Demo.platform (js_get (headers req) "authorization") = None /\
  handle Demo.platform cfg Demo.auth_env Demo.expired req
  = (ErrorPage 500, [CredentialsAwaited]).
Proof. repeat split; vm_compute; reflexivity. Qed.

(** C7. A body whose size is exactly the limit is read into [req.body] and
    the request goes on to the next stage, the credential gate; a body one
    byte longer is answered with the 413 error page, and nothing after the
    body parser runs: no credential resolution, no signing, no proxy. *)
Theorem C7_body_limit_boundary
    (P : Platform) (cfg : Config) (env : ProcessEnv) (w : World)
    (req : Request) (b : list byte) (L : N) :
  body_limit P (argv_l (ARGV cfg)) = Some L ->
  payload req = Some b ->
  (N.of_nat (length b) = L ->
     bodyParser_raw P (argv_l (ARGV cfg)) w req
     = (Next (set_body req (Buffer b)), []) /\
     exists reply tr,
       handle P cfg env w req = (reply, CredentialsAwaited :: tr))
  /\ (N.of_nat (length b) = (L + 1)%N ->
      bodyParser_raw P (argv_l (ARGV cfg)) w req
      = (NextErr {| err_status := Some 413;
                    err_message := "request entity too large" |}, []) /\
      handle P cfg env w req = (ErrorPage 413, [])).
Proof.
  intros HL Hb. split; intros Hlen.
  - assert (Hfit : too_large (Some L) b = false).
    { unfold too_large. apply N.ltb_ge. lia. }
    split.
    + unfold bodyParser_raw. now rewrite Hb, HL, Hfit.
    + rewrite handle_eq. unfold oversize. rewrite Hb, HL, Hfit.
      destruct (await_credentials w 0); [|eauto].
      destruct (health_hit P cfg req); [eauto|]. cbv zeta.
      destruct (forward P cfg w (parsed req)) as [r t].
      destruct (basic_auth_users (ARGV cfg) env); [|eauto].
      destruct (parse_basic P _) as [[name pass]|]; [|eauto].
      destruct (authorizer P _ name pass); eauto.
  - assert (Hover : too_large (Some L) b = true).
    { unfold too_large. apply N.ltb_lt. lia. }
    split.
    + unfold bodyParser_raw. now rewrite Hb, HL, Hover.
    + rewrite handle_eq. unfold oversize. now rewrite Hb, HL, Hover.
Qed.

Lemma C7_body_limit_boundary_witness :
  (exists reply tr,
     handle Demo.platform (Demo.config None (Some "4b") ∅) ∅ Demo.fine
       (Demo.request "POST" "/_bulk" ∅ (Some [x00; x01; x02; x03]))
     = (reply, CredentialsAwaited :: tr)).
Proof.
  destruct (C7_body_limit_boundary Demo.platform
              (Demo.config None (Some "4b") ∅) ∅ Demo.fine
              (Demo.request "POST" "/_bulk" ∅ (Some [x00; x01; x02; x03]))
              [x00; x01; x02; x03] 4%N)
    as (Hat & _); [vm_compute; reflexivity..|].
  destruct Hat as (_ & Hgo); [reflexivity|exact Hgo].
Defined.

(** One byte over the limit of the example above. *)
Example body_one_over_the_limit :
  handle Demo.platform (Demo.config None (Some "4b") ∅) ∅ Demo.fine
    (Demo.request "POST" "/_bulk" ∅ (Some [x00; x01; x02; x03; x04]))
  = (ErrorPage 413, []).
Proof. vm_compute. reflexivity. Qed.

(** ** The [proxyRes] hook *)

Lemma starts_with_app p s : Js.starts_with p (p +:+ s) = true.
Proof. unfold Js.starts_with. now rewrite strip_prefix_app. Qed.

(** [includes] finds exactly the occurrences of [p]. *)
Lemma includes_iff p : forall s,
  Js.includes p s = true <-> exists pre post, s = pre +:+ p +:+ post.
Proof.
  intros s. split.
  - induction s as [|c s IH]; cbn [Js.includes]; intros H.
    + rewrite orb_false_r in H. unfold Js.starts_with in H.
      destruct (Js.strip_prefix p "") as [r|] eqn:E; [|discriminate].
      apply strip_prefix_inv in E. now exists "", r.
    + apply orb_true_iff in H as [H|H].
      * unfold Js.starts_with in H.
        destruct (Js.strip_prefix p (String c s)) as [r|] eqn:E; [|discriminate].
        apply strip_prefix_inv in E. now exists "", r.
      * destruct (IH H) as (pre & post & ->). now exists (String c pre), post.
  - intros (pre & post & ->). induction pre as [|c pre IH].
    + change ("" +:+ p +:+ post) with (p +:+ post).
      destruct (p +:+ post) eqn:E; cbn [Js.includes]; rewrite <- E;
        now rewrite starts_with_app.
    + rewrite append_cons. cbn [Js.includes]. rewrite IH. apply orb_true_r.
Qed.

(** The pattern of the hook: a dot followed by css, js, img or font,
    anywhere in the URL. *)
Lemma static_asset_iff url :
  Re.static_asset url = true <->
  exists pre ext post,
    url = pre +:+ "." +:+ ext +:+ post /\
    (ext = "css" \/ ext = "js" \/ ext = "img" \/ ext = "font").
Proof.
  unfold Re.static_asset. rewrite !orb_true_iff, !includes_iff. split.
  - intros [[[(pre & post & ->)|(pre & post & ->)]|(pre & post & ->)]
           |(pre & post & ->)].
    + exists pre, "css", post. split; [reflexivity|tauto].
    + exists pre, "js", post. split; [reflexivity|tauto].
    + exists pre, "img", post. split; [reflexivity|tauto].
    + exists pre, "font", post. split; [reflexivity|tauto].
  - intros (pre & ext & post & -> & [->|[->|[->| ->]]]).
    + left. left. left. now exists pre, post.
    + left. left. right. now exists pre, post.
    + left. right. now exists pre, post.
    + right. now exists pre, post.
Qed.

(** C8 (amended). The hook sets [Cache-Control: public, max-age=86400]
    when the request URL, path and query string, has somewhere in it a dot
    followed by css, js, img or font, and otherwise leaves the response as
    it is; it changes no other header, nor the status code, nor the body.
    The proxy then writes the status code, every header and the body of the
    upstream onto the response as they are, a header of the upstream taking
    the place of one already set: the answer carries a Cache-Control of the
    upstream if it sent one, else the hook's if the URL matches, and the
    headers the upstream did not send stay as they stood. *)
Theorem C8_cache_control_hook
    (req_url : string) (res : ServerResponse) (up : UpstreamResponse) :
  (Re.static_asset req_url = true <->
   exists pre ext post,
     req_url = pre +:+ "." +:+ ext +:+ post /\
     (ext = "css" \/ ext = "js" \/ ext = "img" \/ ext = "font")) /\
  on_proxyRes req_url res =
    (if Re.static_asset req_url
     then {| res_status := res_status res;
             res_headers := <["cache-control" := "public, max-age=86400"]>
                              (res_headers res);
             res_body := res_body res |}
     else res) /\
  (forall name, name <> "cache-control" ->
     res_headers (on_proxyRes req_url res) !! name = res_headers res !! name) /\
  res_status (relay up (on_proxyRes req_url res)) = up_status up /\
  res_body (relay up (on_proxyRes req_url res)) = up_body up /\
  (forall name value,
     up_headers up !! name = Some value ->
     res_headers (relay up (on_proxyRes req_url res)) !! name = Some value) /\
  (forall name,
     up_headers up !! name = None -> name <> "cache-control" ->
     res_headers (relay up (on_proxyRes req_url res)) !! name
     = res_headers res !! name) /\
  res_headers (relay up (on_proxyRes req_url res)) !! "cache-control" =
    match up_headers up !! "cache-control" with
    | Some value => Some value
    | None => if Re.static_asset req_url then Some "public, max-age=86400"
              else res_headers res !! "cache-control"
    end.
Proof.
  assert (Hother : forall name, name <> "cache-control" ->
            res_headers (on_proxyRes req_url res) !! name
            = res_headers res !! name).
  { intros name Hname. unfold on_proxyRes.
    destruct (Re.static_asset req_url); [|reflexivity].
    cbn [setHeader res_headers].
    change (Url.lower_string "Cache-Control") with "cache-control".
    now rewrite lookup_insert_ne. }
  split; [apply static_asset_iff|].
  split; [reflexivity|].
  split; [exact Hother|].
  split; [reflexivity|]. split; [reflexivity|].
  cbn [relay res_headers]. split; [|split].
  - intros name value Hup. now apply lookup_union_Some_l.
  - intros name Hup Hname. rewrite (lookup_union_r _ _ _ Hup).
    now apply Hother.
  - destruct (up_headers up !! "cache-control") as [value|] eqn:Hup.
    + now apply lookup_union_Some_l.
    + rewrite (lookup_union_r _ _ _ Hup). unfold on_proxyRes.
      destruct (Re.static_asset req_url); [|reflexivity].
      cbn [setHeader res_headers].
      change (Url.lower_string "Cache-Control") with "cache-control".
      apply lookup_insert_eq.
Qed.

Lemma C8_cache_control_hook_witness :
  res_headers
    (relay {| up_status := 200;
              up_headers := {[ "content-type" := "text/javascript" ]};
              up_body := [] |}
       (on_proxyRes "/bundles/app.js"
          {| res_status := 200;
             res_headers := {[ "x-powered-by" := "Express" ]};
             res_body := [] |}))
  = {[ "content-type" := "text/javascript";
       "cache-control" := "public, max-age=86400";
       "x-powered-by" := "Express" ]}.
Proof.
  destruct (C8_cache_control_hook "/bundles/app.js"
              {| res_status := 200;
                 res_headers := {[ "x-powered-by" := "Express" ]};
                 res_body := [] |}
              {| up_status := 200;
                 up_headers := {[ "content-type" := "text/javascript" ]};
                 up_body := [] |})
    as (_ & Hhook & _).
  rewrite Hhook. vm_compute. reflexivity.
Defined.

(** C8, as the claim words it, fails in both directions. The path
    [/_search] has no static-asset suffix, and the header is attached all
    the same, because the pattern is looked for in the whole URL and not
    only at the end of the path. The path [/bundles/app.js] has the suffix,
    and the answer carries the upstream's [no-cache] instead, because the
    proxy writes the upstream's headers after the hook has run. *)
Lemma C8_counterexample_pattern_anywhere :
  let res := {| res_status := 200; res_headers := ∅; res_body := [] |} in
  let plain := {| up_status := 200; up_headers := ∅; up_body := [] |} in
  let uncached := {| up_status := 200;
                     up_headers := {[ "cache-control" := "no-cache" ]};
                     up_body := [] |} in
  path_of "/_search?q=a.css&size=1" = "/_search" /\
  Claimed.static_suffix "/_search?q=a.css&size=1" = false /\
  res_headers (relay plain (on_proxyRes "/_search?q=a.css&size=1" res))
    !! "cache-control" = Some "public, max-age=86400" /\
  Claimed.static_suffix "/bundles/app.js" = true /\
  res_headers (relay uncached (on_proxyRes "/bundles/app.js" res))
    !! "cache-control" = Some "no-cache".
Proof. repeat split; vm_compute; reflexivity. Qed.

(** A path that goes on after the extension is taken as well. *)
Example static_asset_in_the_middle :
  Claimed.static_suffix "/api/data.json" = false /\
  Re.static_asset "/api/data.json" = true.
Proof. split; reflexivity. Qed.

(** ** Credential initialisation *)

Ltac init_step :=
  cbn [Init.credentials Init.signer Init.clock Init.trace List.app
       Init.is_ok snd].

Ltac init_done :=
  split; [eexists; reflexivity|];
  split; [reflexivity|];
  split; intros; cbn [In] in *; intuition congruence.

(** C9. With a profile configured and the first resolution failing, the
    fallback builds its provider exactly as the first attempt did, from the
    same profile, and awaits that provider: its outcome is what the same
    provider chain answers when asked a second time. No provider built in
    another way is constructed or awaited anywhere in the initialisation. *)
Theorem C9_fallback_repeats_first_attempt
    (profile region : string) (cloud : Init.Cloud) (e : string) :
  profile <> "" ->
  Init.resolve cloud (Init.fromNodeProviderChain (Some profile)) 0 = Throw e ->
  let first := Init.fromNodeProviderChain (Some profile) in
  let st := snd (Init.initializeCredentials (Some profile) region cloud
                   Init.start) in
  (exists rest,
     Init.trace st =
       ([Init.Constructed first;
         Init.Awaited first false;
         Init.Log "SSO credentials not available, trying regular profile...";
         Init.Constructed first;
         Init.Awaited first (Init.is_ok (Init.resolve cloud first 1))]
        ++ rest)%list) /\
  Init.credentials st = Some first /\
  (forall q, In (Init.Constructed q) (Init.trace st) -> q = first) /\
  (forall q ok, In (Init.Awaited q ok) (Init.trace st) -> q = first).
Proof.
  intros Hp H0 first st. subst st first.
  unfold Init.initializeCredentials, Init.load.
  rewrite (truthy_Some _ _ eq_refl Hp).
  unfold Init.try_catch, Init.bind, Init.set_credentials, Init.set_signer,
    Init.await_credentials, Init.emit, Init.get_credentials, Init.sts_send,
    Init.ret, Init.start.
  init_step. rewrite H0. init_step.
  destruct (Init.resolve cloud _ 1) as [c1|m1]; init_step.
  - unfold Init.bind, Init.await_credentials. init_step.
    destruct (Init.resolve cloud _ 2) as [c2|m2]; init_step.
    + destruct (Init.get_caller_identity cloud region c2) as [account|m3];
        init_step; [|destruct (Js.includes "SSO" m3)]; init_step; init_done.
    + destruct (Js.includes "SSO" m2); init_step; init_done.
  - destruct (Js.includes "SSO" m1); init_step; init_done.
Qed.

Lemma C9_fallback_repeats_first_attempt_witness :
  Init.credentials
    (snd (Init.initializeCredentials (Some "dev") "us-west-2" Demo.flaky
            Init.start))
  = Some (Init.fromNodeProviderChain (Some "dev")).
Proof.
  destruct (C9_fallback_repeats_first_attempt "dev" "us-west-2" Demo.flaky
              "The SSO session has expired")
    as (_ & Hcred & _); [discriminate|reflexivity|exact Hcred].
Defined.

(** ** Endpoint, target and the host signed for *)

(** C10. With ENDPOINT set (to a non-empty value) in the environment, the
    endpoint is that value whatever the positional arguments are. Start-up
    comes out the same with any other positional arguments, which are seen
    in [argv._] only; once the region is resolved it yields a configuration
    whose endpoint is that value and whose target, the one the proxy is
    made with, is that value, with [https://] in front of it unless it
    starts with [http://] or [https://]. Every request handed to the signer
    is signed for the host parsed from that value, and a request that
    passes the gates is handed to the signer when that host parses. *)
Theorem C10_environment_endpoint_first
    (P : Platform) (cli : Cli) (env : ProcessEnv) (e : string) :
  env !! "ENDPOINT" = Some e -> e <> "" ->
  endpoint_of (parse_argv cli env) env = Some e /\
  (forall pos,
     configure (with_positional cli pos) env =
       match resolve_region (parse_argv cli env) e with
       | Some region =>
           Ready {| ARGV := parse_argv (with_positional cli pos) env;
                    ENDPOINT := e;
                    REGION := region;
                    TARGET := if Js.starts_with "http://" e
                                 || Js.starts_with "https://" e
                              then e else "https://" +:+ e;
                    PROFILE := env !! "AWS_PROFILE" |}
       | None => Uncaught [Stderr region_error] showHelp_error
       end) /\
  (forall region,
     resolve_region (parse_argv cli env) e = Some region ->
     exists cfg,
       configure cli env = Ready cfg /\
       ENDPOINT cfg = e /\
       REGION cfg = region /\
       TARGET cfg = (if Js.starts_with "http://" e
                        || Js.starts_with "https://" e
                     then e else "https://" +:+ e) /\
       target (options cfg) = TARGET cfg /\
       (forall w req reply tr request,
          handle P cfg env w req = (reply, tr) -> In (Signed request) tr ->
          sr_headers request !! "Host" = Url.hostname e) /\
       (forall host w req,
          Url.hostname e = Some host -> reaches_signer P cfg env w req ->
          exists request,
            In (Signed request) (snd (handle P cfg env w req)) /\
            sr_headers request !! "Host" = Some host)).
Proof.
  intros He Hne.
  assert (Hep : forall c, endpoint_of (parse_argv c env) env = Some e).
  { intros c. unfold endpoint_of, Js.or.
    now rewrite He, (truthy_Some _ _ eq_refl Hne). }
  split; [apply Hep|]. split.
  - intros pos.
    rewrite (configure_with_endpoint _ _ _ (Hep (with_positional cli pos)) Hne).
    unfold resolve_region. cbn [parse_argv argv_r with_positional flag_r].
    reflexivity.
  - intros region Hr.
    rewrite (configure_with_endpoint _ _ _ (Hep cli) Hne), Hr.
    eexists. split; [reflexivity|].
    cbn [ENDPOINT REGION TARGET options target].
    repeat split.
    + intros w req reply tr request Hh Hin.
      destruct (handle_signed _ _ _ _ _ _ _ _ Hh Hin)
        as (_ & host & Hhost & ->).
      cbn [ENDPOINT] in Hhost. now rewrite sign_request_host.
    + intros host w req Hhost Hreach.
      rewrite (handle_reaches _ _ _ _ _ Hreach), forward_eq.
      cbn [ENDPOINT]. rewrite Hhost. cbv zeta.
      exists (sign_request P host (parsed req)).
      split; [|apply sign_request_host].
      destruct (match await_credentials w 1 with
                | Ok c => signer_sign P _ "es" c _
                | Throw m => Throw m end);
        cbn [snd]; right; now left.
Qed.

Lemma C10_environment_endpoint_first_witness :
  exists cfg,
    configure (bare ["other.eu-west-1.es.amazonaws.com"])
      {[ "ENDPOINT" := "search-prod.us-west-2.es.amazonaws.com" ]} = Ready cfg /\
    ENDPOINT cfg = "search-prod.us-west-2.es.amazonaws.com" /\
    REGION cfg = "us-west-2" /\
    TARGET cfg = "https://search-prod.us-west-2.es.amazonaws.com" /\
    target (options cfg) = "https://search-prod.us-west-2.es.amazonaws.com".
Proof.
  destruct (C10_environment_endpoint_first Demo.platform
              (bare ["other.eu-west-1.es.amazonaws.com"])
              {[ "ENDPOINT" := "search-prod.us-west-2.es.amazonaws.com" ]}
              "search-prod.us-west-2.es.amazonaws.com")
    as (_ & _ & Hcfg); [vm_compute; reflexivity|discriminate|].
  destruct (Hcfg "us-west-2") as (cfg & Hc & He & Hr & Ht & Ho & _);
    [vm_compute; reflexivity|].
  exists cfg. rewrite Ho, Ht. repeat split; assumption.
Defined.

(** With ENDPOINT set to a URL, a request that passes the gates is signed
    for the host of that URL, not for the positional argument's. *)
Example environment_endpoint_signed_host :
  let env : ProcessEnv :=
    {[ "ENDPOINT" := "https://search-prod.us-west-2.es.amazonaws.com" ]} in
  exists cfg request call,
    configure (bare ["other.eu-west-1.es.amazonaws.com"]) env = Ready cfg /\
    snd (handle Demo.platform cfg env Demo.fine
           (Demo.request "GET" "/_cat/indices" ∅ None))
      = [CredentialsAwaited; Signed request; ProxyWeb call] /\
    sr_headers request !! "Host"
      = Some "search-prod.us-west-2.es.amazonaws.com".
Proof.
  do 3 eexists. split; [vm_compute; reflexivity|].
  split; vm_compute; reflexivity.
Qed.

(** C3, where the code departs from it. For the endpoint of the documented
    usage, a bare host name, the target gets its scheme and its host
    parses, yet the handler parses the endpoint itself, which has no
    scheme: the URL constructor throws, and whatever the credentials and
    the request, the answer is the 500 of the handler's [catch], with
    nothing signed and nothing forwarded. *)
Theorem C3_bare_host_endpoint_is_never_signed
    (P : Platform) (w : World) (req : Request) :
  exists cfg,
    configure (bare ["search-prod.us-west-2.es.amazonaws.com"]) ∅ = Ready cfg /\
    TARGET cfg = "https://search-prod.us-west-2.es.amazonaws.com" /\
    Url.hostname (TARGET cfg) = Some "search-prod.us-west-2.es.amazonaws.com" /\
    Url.hostname (ENDPOINT cfg) = None /\
    sign_and_forward P (ENDPOINT cfg) (REGION cfg) w req
    = (End (Sent 500 [] "Internal Server Error"), []) /\
    forall reply tr,
      handle P cfg ∅ w req = (reply, tr) ->
      (forall r, ~ In (Signed r) tr) /\ (forall call, ~ In (ProxyWeb call) tr).
Proof.
  eexists. split; [vm_compute; reflexivity|].
  cbn [TARGET ENDPOINT REGION]. repeat split.
  - intros r Hin.
    destruct (handle_signed _ _ _ _ _ _ _ _ H Hin) as (_ & host & Hhost & _).
    cbn [ENDPOINT] in Hhost. discriminate.
  - intros call Hin.
    destruct (handle_proxied _ _ _ _ _ _ _ _ H Hin)
      as (_ & host & _ & _ & Hhost & _).
    cbn [ENDPOINT] in Hhost. discriminate.
Qed.

(** With a port and no scheme, the endpoint parses as a URL whose scheme is
    the host name: the host signed for is empty, the target's is not. *)
Example host_and_port_endpoint :
  Url.hostname "search-prod.us-west-2.es.amazonaws.com:443" = Some "" /\
  Url.hostname (target_of "search-prod.us-west-2.es.amazonaws.com:443")
  = Some "search-prod.us-west-2.es.amazonaws.com".
Proof. split; reflexivity. Qed.

(** For an endpoint that carries [http://] or [https://], the host signed
    for is the host of the target. *)
Lemma signed_host_is_target_host
    (P : Platform) (cfg : Config) (env : ProcessEnv) (w : World)
    (req : Request) reply tr request :
  Re.has_http_scheme (ENDPOINT cfg) = true ->
  TARGET cfg = target_of (ENDPOINT cfg) ->
  handle P cfg env w req = (reply, tr) -> In (Signed request) tr ->
  sr_headers request !! "Host" = Url.hostname (TARGET cfg).
Proof.
  intros Hs -> Hh Hin. rewrite (target_of_with_scheme _ Hs).
  destruct (handle_signed _ _ _ _ _ _ _ _ Hh Hin) as (_ & host & -> & ->).
  apply sign_request_host.
Qed.

(** ** The Basic-Auth registry *)

(** The one pair registered, when Basic-Auth is on, is read from the
    environment alone. *)
Lemma basic_auth_users_from_environment argv env users :
  basic_auth_users argv env = Some users ->
  users = {[ Js.key (Js.or (env !! "USER") (env !! "AUTH_USER")) :=
               Js.or (env !! "PASSWORD") (env !! "AUTH_PASSWORD") ]}.
Proof.
  unfold basic_auth_users.
  destruct (Js.truthy (argv_u argv) && Js.truthy (argv_a argv)); [|discriminate].
  now intros [= <-].
Qed.

(** C5, where the code departs from it. Started with [-u alice -a secret]
    in an environment where USER is root and no password variable is set,
    Basic-Auth is on, and the pair registered is root with an undefined
    password, not alice with secret. *)
Theorem C5_registered_pair_ignores_flags :
  let env : ProcessEnv := {[ "USER" := "root" ]} in
  exists cfg,
    configure Demo.cli_with_auth env = Ready cfg /\
    argv_u (ARGV cfg) = Some "alice" /\
    argv_a (ARGV cfg) = Some "secret" /\
    basic_auth_users (ARGV cfg) env = Some {[ "root" := None ]} /\
    basic_auth_users (ARGV cfg) env <> Some {[ "alice" := Some "secret" ]}.
Proof.
  eexists. split; [vm_compute; reflexivity|].
  repeat split; try (vm_compute; reflexivity).
  vm_compute. discriminate.
Qed.

(** With both variables of a pair set, USER and PASSWORD come before
    AUTH_USER and AUTH_PASSWORD in the registry, the other way round than
    in the defaults of the options. *)
Example registry_prefers_user_and_password :
  let env : ProcessEnv :=
    <["USER" := "root"]> (<["AUTH_USER" := "admin"]>
      (<["PASSWORD" := "hunter2"]> (<["AUTH_PASSWORD" := "letmein"]> ∅))) in
  let argv := parse_argv (bare ["https://search-prod.us-west-2.es.amazonaws.com"]) env in
  argv_u argv = Some "admin" /\ argv_a argv = Some "letmein" /\
  basic_auth_users argv env = Some {[ "root" := Some "hunter2" ]}.
Proof. repeat split; vm_compute; reflexivity. Qed.

(** ** The URL constructor on endpoints *)

Example hostname_of_https_endpoint :
  Url.hostname "https://Search-Prod.us-west-2.es.amazonaws.com:443/_dashboards"
  = Some "search-prod.us-west-2.es.amazonaws.com".
Proof. reflexivity. Qed.

Example hostname_of_bare_host :
  Url.hostname "search-prod.us-west-2.es.amazonaws.com" = None.
Proof. reflexivity. Qed.

Example hostname_percent_decoded :
  Url.hostname "https://ex%41mple.com/" = Some "example.com".
Proof. reflexivity. Qed.

(** * Further properties of the code *)

(** ** Start-up configuration (lines 71-97) *)

Lemma truthy_inv v :
  Js.truthy v = true -> exists s, v = Some s /\ s <> "".
Proof.
  destruct v as [s|]; [|discriminate]. simpl. intros H. exists s.
  split; [reflexivity|]. intros ->. discriminate.
Qed.

Lemma or_falsy a b :
  Js.truthy (Js.or a b) = false <-> Js.truthy a = false /\ Js.truthy b = false.
Proof.
  unfold Js.or. destruct (Js.truthy a) eqn:Ea.
  - rewrite Ea. split; [discriminate|intros [? _]; discriminate].
  - tauto.
Qed.

(** X1. Whenever start-up does not exit, the endpoint and the region are
    non-empty, the endpoint is the ENDPOINT variable when that is non-empty
    and the first positional argument otherwise, and the target is the
    endpoint itself or the endpoint behind [https://], and in both cases
    starts with [http://] or [https://]. *)
Theorem X1_ready_configuration_invariant
    (cli : Cli) (env : ProcessEnv) (cfg : Config) :
  configure cli env = Ready cfg ->
  ENDPOINT cfg <> "" /\
  REGION cfg <> "" /\
  Some (ENDPOINT cfg) = Js.or (env !! "ENDPOINT") (head (positional cli)) /\
  (TARGET cfg = ENDPOINT cfg \/ TARGET cfg = "https://" +:+ ENDPOINT cfg) /\
  Re.has_http_scheme (TARGET cfg) = true /\
  ARGV cfg = parse_argv cli env.
Proof.
  unfold configure.
  destruct (Js.truthy (endpoint_of (parse_argv cli env) env)) eqn:Et;
    [|discriminate]. cbn [negb].
  destruct (truthy_inv _ Et) as (ep & Hep & Hne). rewrite Hep. cbn [Js.key].
  destruct (resolve_region (parse_argv cli env) ep) as [region|] eqn:Er;
    [|discriminate].
  intros [= <-]. cbn [ENDPOINT REGION TARGET ARGV].
  repeat split; try assumption.
  - unfold resolve_region in Er.
    destruct (Js.truthy (argv_r (parse_argv cli env))) eqn:Ef.
    + destruct (truthy_inv _ Ef) as (r & Hr & Hrne). congruence.
    + destruct (region_match_found _ _ Er) as (pre & t & _ & Ht).
      now destruct (region_at_inv _ _ Ht) as (post & _ & Hl & _).
  - now rewrite <- Hep.
  - unfold target_of. destruct (Re.has_http_scheme ep); auto.
  - apply target_has_scheme.
Qed.

Lemma X1_ready_configuration_invariant_witness :
  exists cfg,
    configure (bare ["search-prod.us-west-2.es.amazonaws.com"]) ∅ = Ready cfg /\
    Re.has_http_scheme (TARGET cfg) = true.
Proof.
  eexists. split; [vm_compute; reflexivity|].
  apply (X1_ready_configuration_invariant
           (bare ["search-prod.us-west-2.es.amazonaws.com"]) ∅).
  vm_compute. reflexivity.
Defined.

(** X2. Start-up stops with nothing printed exactly when there is no
    endpoint: the ENDPOINT variable is unset or empty and there is no first
    positional argument, or an empty one. It stops on the call of
    [yargs.showHelp], which the factory bound to [yargs] does not have: the
    usage is not printed and the exit of the next line is not reached. An
    empty ENDPOINT variable does not hide the positional argument. Whenever
    start-up stops, it is on that call, with nothing printed or with the
    region error alone. *)
Theorem X2_missing_endpoint (cli : Cli) (env : ProcessEnv) :
  (configure cli env = Uncaught [] showHelp_error <->
   Js.truthy (env !! "ENDPOINT") = false /\
   Js.truthy (head (positional cli)) = false) /\
  (forall out error,
     configure cli env = Uncaught out error ->
     error = "yargs.showHelp is not a function" /\
     (out = [] \/ out = [Stderr region_error])).
Proof.
  split.
  - rewrite <- or_falsy.
    change (Js.or (env !! "ENDPOINT") (head (positional cli)))
      with (endpoint_of (parse_argv cli env) env).
    unfold configure.
    destruct (Js.truthy (endpoint_of (parse_argv cli env) env)); cbn [negb].
    + destruct (resolve_region _ _); split; discriminate.
    + tauto.
  - intros out error. unfold configure.
    destruct (negb _); [intros [= <- <-]; auto|].
    destruct (resolve_region _ _); [discriminate|].
    intros [= <- <-]. auto.
Qed.

Lemma X2_missing_endpoint_witness :
  configure (bare [""]) {[ "ENDPOINT" := "" ]} = Uncaught [] showHelp_error /\
  exists cfg,
    configure (bare ["https://search-prod.us-west-2.es.amazonaws.com"])
      {[ "ENDPOINT" := "" ]} = Ready cfg.
Proof.
  split.
  - apply (X2_missing_endpoint (bare [""]) {[ "ENDPOINT" := "" ]}).
    split; vm_compute; reflexivity.
  - eexists. vm_compute. reflexivity.
Defined.

(** ** An endpoint with no colon in it (line 213) *)

Abbreviation colon_free s := (Url.any_char (Url.is_char ":") s = false).

Lemma trim_left_colon_free s : colon_free s -> colon_free (Url.trim_left s).
Proof.
  induction s as [|c s IH]; cbn [Url.trim_left Url.any_char]; [trivial|].
  intros H. apply orb_false_iff in H as [Hc Hs].
  destruct (Url.c0_or_space c); [now apply IH|].
  cbn [Url.any_char]. now rewrite Hc, Hs.
Qed.

Lemma trim_right_colon_free s : colon_free s -> colon_free (Url.trim_right s).
Proof.
  induction s as [|c s IH]; cbn [Url.trim_right Url.any_char]; [trivial|].
  intros H. apply orb_false_iff in H as [Hc Hs].
  destruct (Url.c0_or_space c && String.eqb (Url.trim_right s) ""); [reflexivity|].
  cbn [Url.any_char]. now rewrite Hc, (IH Hs).
Qed.

Lemma remove_tab_newline_colon_free s :
  colon_free s -> colon_free (Url.remove_tab_newline s).
Proof.
  induction s as [|c s IH]; cbn [Url.remove_tab_newline Url.any_char]; [trivial|].
  intros H. apply orb_false_iff in H as [Hc Hs].
  destruct (Url.tab_or_newline c); [now apply IH|].
  cbn [Url.any_char]. now rewrite Hc, (IH Hs).
Qed.

Lemma scheme_tail_colon_free s : colon_free s -> Url.scheme_tail s = None.
Proof.
  induction s as [|c s IH]; cbn [Url.scheme_tail Url.any_char]; [trivial|].
  intros H. apply orb_false_iff in H as [Hc Hs]. rewrite Hc, (IH Hs).
  now destruct (Url.scheme_char c).
Qed.

(** The URL constructor refuses every input that has no colon. *)
Lemma hostname_colon_free s : colon_free s -> Url.hostname s = None.
Proof.
  intros H. unfold Url.hostname.
  pose proof (remove_tab_newline_colon_free _
                (trim_right_colon_free _ (trim_left_colon_free _ H))) as H'.
  destruct (Url.remove_tab_newline (Url.trim_right (Url.trim_left s)))
    as [|c t]; [reflexivity|].
  cbn [Url.split_scheme]. cbn [Url.any_char] in H'.
  apply orb_false_iff in H' as [_ Ht].
  rewrite (scheme_tail_colon_free _ Ht). now destruct (Url.is_alpha c).
Qed.

(** X4. With an endpoint that has no colon in it (a bare host name, with no
    scheme and no port), no request is ever signed or forwarded: a request
    that passes the body parser, the credential gate, the health route and
    Basic-Auth is answered with 500 Internal Server Error, whatever the
    credentials are. *)
Theorem X4_endpoint_without_colon_never_signs
    (P : Platform) (cfg : Config) (env : ProcessEnv) (w : World)
    (req : Request) :
  Url.any_char (Url.is_char ":") (ENDPOINT cfg) = false ->
  (reaches_signer P cfg env w req ->
   handle P cfg env w req
   = (Sent 500 [] "Internal Server Error", [CredentialsAwaited])) /\
  (forall reply tr, handle P cfg env w req = (reply, tr) ->
     (forall r, ~ In (Signed r) tr) /\ (forall call, ~ In (ProxyWeb call) tr)).
Proof.
  intros Hc. pose proof (hostname_colon_free _ Hc) as Hnone. split.
  - intros Hr. rewrite (handle_reaches _ _ _ _ _ Hr), forward_eq, Hnone.
    reflexivity.
  - intros reply tr Hh. split.
    + intros r Hin.
      destruct (handle_signed _ _ _ _ _ _ _ _ Hh Hin) as (_ & host & Hhost & _).
      congruence.
    + intros call Hin.
      destruct (handle_proxied _ _ _ _ _ _ _ _ Hh Hin)
        as (_ & host & _ & _ & Hhost & _).
      congruence.
Qed.

Lemma X4_endpoint_without_colon_never_signs_witness :
  handle Demo.platform
    {| ARGV := parse_argv (bare ["search-prod.us-west-2.es.amazonaws.com"]) ∅;
       ENDPOINT := "search-prod.us-west-2.es.amazonaws.com";
       REGION := "us-west-2";
       TARGET := "https://search-prod.us-west-2.es.amazonaws.com";
       PROFILE := None |} ∅ Demo.fine
    (Demo.request "GET" "/_cat/indices" ∅ None)
  = (Sent 500 [] "Internal Server Error", [CredentialsAwaited]).
Proof.
  apply (X4_endpoint_without_colon_never_signs Demo.platform).
  - reflexivity.
  - repeat split; try (vm_compute; reflexivity). now exists Demo.key.
Defined.

(** X5. For an endpoint that is given with [http://] or [https://], the
    target is the endpoint as it stands, and every request that is signed
    is signed for the host of the target. *)
Theorem X5_signed_host_of_target
    (P : Platform) (cli : Cli) (env : ProcessEnv) (cfg : Config) (w : World)
    (req : Request) (reply : Reply) (tr : list Event) (request : SignRequest) :
  configure cli env = Ready cfg ->
  Re.has_http_scheme (ENDPOINT cfg) = true ->
  handle P cfg env w req = (reply, tr) ->
  In (Signed request) tr ->
  TARGET cfg = ENDPOINT cfg /\
  sr_headers request !! "Host" = Url.hostname (TARGET cfg) /\
  exists host, Url.hostname (TARGET cfg) = Some host.
Proof.
  intros Hcfg Hs Hh Hin.
  assert (Ht : TARGET cfg = target_of (ENDPOINT cfg)).
  { unfold configure in Hcfg.
    destruct (negb _); [discriminate|].
    destruct (resolve_region _ _); [|discriminate]. now injection Hcfg as <-. }
  split; [now rewrite Ht, target_of_with_scheme|].
  split; [eapply signed_host_is_target_host; eassumption|].
  destruct (handle_signed _ _ _ _ _ _ _ _ Hh Hin) as (_ & host & Hhost & _).
  exists host. now rewrite Ht, target_of_with_scheme.
Qed.

Lemma X5_signed_host_of_target_witness :
  sr_headers
    (sign_request Demo.platform "search-prod.us-west-2.es.amazonaws.com"
       (Demo.request "GET" "/_cat/indices" ∅ None)) !! "Host"
  = Url.hostname "https://search-prod.us-west-2.es.amazonaws.com".
Proof.
  pose (req := Demo.request "GET" "/_cat/indices" ∅ None).
  pose (r := sign_request Demo.platform
               "search-prod.us-west-2.es.amazonaws.com" req).
  pose (sh := match Demo.sign "us-west-2" "es" Demo.key r with
              | Ok sh => sh | Throw _ => ∅ end).
  destruct (X5_signed_host_of_target Demo.platform (Demo.cli None None) ∅
              (Demo.config None None ∅) Demo.fine req
              (Proxied (proxy_call req sh))
              [CredentialsAwaited; Signed r; ProxyWeb (proxy_call req sh)] r)
    as (_ & Hhost & _).
  - vm_compute. reflexivity.
  - vm_compute. reflexivity.
  - vm_compute. reflexivity.
  - right. left. reflexivity.
  - exact Hhost.
Defined.

(** ** The Basic-Auth gate (lines 195-208) *)

(** X19. Basic-Auth is off whenever no password reaches the options: no
    [-a] flag and neither AUTH_PASSWORD nor PASSWORD set to a non-empty
    value. When it is on, the registry holds exactly one user; and when
    neither [-u] nor [-a] is given and AUTH_USER and AUTH_PASSWORD are
    unset or empty, that one pair is the user and password of the
    options. *)
Theorem X19_basic_auth_registry (cli : Cli) (env : ProcessEnv) :
  let argv := parse_argv cli env in
  (flag_a cli = None ->
   Js.truthy (env !! "AUTH_PASSWORD") = false ->
   Js.truthy (env !! "PASSWORD") = false ->
   basic_auth_users argv env = None) /\
  (forall users, basic_auth_users argv env = Some users ->
     size users = 1 /\
     (flag_u cli = None -> flag_a cli = None ->
      Js.truthy (env !! "AUTH_USER") = false ->
      Js.truthy (env !! "AUTH_PASSWORD") = false ->
      exists user, argv_u argv = Some user /\
                   users = {[ user := argv_a argv ]})).
Proof.
  intros argv. split.
  - intros Ha H1 H2. unfold basic_auth_users. subst argv.
    cbn [parse_argv argv_a argv_u]. rewrite Ha. cbn [with_default].
    assert (Hf : Js.truthy (Js.or (env !! "AUTH_PASSWORD") (env !! "PASSWORD"))
                 = false) by now apply or_falsy.
    rewrite Hf. now rewrite andb_false_r.
  - intros users Hu. split.
    + rewrite (basic_auth_users_from_environment _ _ _ Hu).
      apply map_size_singleton.
    + intros Hfu Hfa H1 H2.
      rewrite (basic_auth_users_from_environment _ _ _ Hu).
      unfold basic_auth_users in Hu. subst argv.
      cbn [parse_argv argv_a argv_u] in *. rewrite Hfu, Hfa in *.
      cbn [with_default] in *.
      unfold Js.or in *. rewrite H1, H2 in *.
      destruct (Js.truthy (env !! "USER")) eqn:Eu; [|discriminate].
      destruct (Js.truthy (env !! "PASSWORD")) eqn:Ep; [|discriminate].
      destruct (truthy_inv _ Eu) as (user & Huser & _).
      exists user. rewrite Huser. split; reflexivity.
Qed.

Lemma X19_basic_auth_registry_witness :
  basic_auth_users
    (parse_argv (bare ["https://search-prod.us-west-2.es.amazonaws.com"])
       Demo.auth_env) Demo.auth_env
  = Some {[ "root" := Some "hunter2" ]}.
Proof.
  destruct (X19_basic_auth_registry
              (bare ["https://search-prod.us-west-2.es.amazonaws.com"])
              Demo.auth_env) as (_ & Hon).
  destruct (Hon {[ "root" := Some "hunter2" ]}) as (_ & Hpair);
    [vm_compute; reflexivity|].
  destruct Hpair as (user & Hu & Hreg); try (vm_compute; reflexivity).
Defined.

(** ** The request given to the signer (lines 216-250) *)

(** Copying the listed headers that the request has onto a base object. *)
Lemma include_lookup (hs : Headers) (names : list string) :
  forall (base : gmap string string) (name : string),
    foldl (fun acc n =>
             match js_get hs n with
             | Some value => <[n := value]> acc
             | None => acc
             end) base names !! name
    = if bool_decide (name ∈ names)
      then match js_get hs name with
           | Some value => Some value
           | None => base !! name
           end
      else base !! name.
Proof.
  induction names as [|n names IH]; intros base name; cbn [foldl].
  - rewrite bool_decide_eq_false_2 by apply not_elem_of_nil. reflexivity.
  - rewrite IH. destruct (decide (name = n)) as [->|Hne].
    + rewrite (bool_decide_eq_true_2 (n ∈ n :: names)) by apply list_elem_of_here.
      destruct (js_get hs n) as [v|] eqn:E.
      * rewrite lookup_insert_eq. now case_bool_decide.
      * now case_bool_decide.
    + assert (Hiff : name ∈ n :: names <-> name ∈ names)
        by (rewrite elem_of_cons; tauto).
      rewrite (bool_decide_ext _ _ Hiff).
      destruct (js_get hs n) as [v|];
        [rewrite lookup_insert_ne by congruence|]; reflexivity.
Qed.

(** X6. The headers of the request given to the signer are the host, the
    digest of the body, and those of accept, accept-encoding,
    accept-language, content-type and upgrade-insecure-requests that the
    incoming request has, with the incoming values. No other header of the
    incoming request is handed to the signer: not its Authorization header,
    not its cookies. *)
Theorem X6_signer_sees_only_listed_headers
    (P : Platform) (host : string) (req : Request) (name : string) :
  sr_headers (sign_request P host req) !! name
  = (if String.eqb name "Host" then Some host
     else if String.eqb name "x-amz-content-sha256"
          then Some (sha256_hex P (body_bytes (body req)))
          else if bool_decide (name ∈ headersToInclude)
               then js_get (headers req) name
               else None).
Proof.
  unfold sign_request. cbn [sr_headers]. rewrite include_lookup.
  destruct (String.eqb_spec name "Host") as [->|Hh].
  - change (bool_decide ("Host" ∈ headersToInclude)) with false.
    rewrite lookup_insert_ne by discriminate. apply lookup_insert_eq.
  - destruct (String.eqb_spec name "x-amz-content-sha256") as [->|Hx].
    + change (bool_decide ("x-amz-content-sha256" ∈ headersToInclude))
        with false.
      apply lookup_insert_eq.
    + rewrite !lookup_insert_ne by congruence. rewrite lookup_empty.
      case_bool_decide; [|reflexivity].
      now destruct (js_get (headers req) name).
Qed.

(** X7. Whatever is signed during a request is signed with the method and
    the URL of that request, with the bytes of its body (none when it has
    no body), and with a content hash that is the digest of those very
    bytes. *)
Theorem X7_signed_request_matches_incoming
    (P : Platform) (cfg : Config) (env : ProcessEnv) (w : World)
    (req : Request) (reply : Reply) (tr : list Event) (r : SignRequest) :
  body req = Undefined ->
  handle P cfg env w req = (reply, tr) ->
  In (Signed r) tr ->
  sr_method r = method req /\
  sr_path r = url req /\
  sr_body r = match payload req with Some b => b | None => [] end /\
  sr_headers r !! "x-amz-content-sha256" = Some (sha256_hex P (sr_body r)).
Proof.
  intros Hb Hh Hin.
  destruct (handle_signed _ _ _ _ _ _ _ _ Hh Hin) as (_ & host & _ & ->).
  rewrite sign_request_hash, sign_request_body.
  unfold parsed. destruct (payload req) as [b|]; cbn; rewrite ?Hb; auto.
Qed.

Lemma X7_signed_request_matches_incoming_witness :
  sr_body (sign_request Demo.platform "search-prod.us-west-2.es.amazonaws.com"
             (parsed (Demo.request "POST" "/_bulk" ∅ (Some [x00; x01]))))
  = [x00; x01].
Proof.
  pose (req := Demo.request "POST" "/_bulk" ∅ (Some [x00; x01])).
  pose (r := sign_request Demo.platform
               "search-prod.us-west-2.es.amazonaws.com" (parsed req)).
  pose (sh := match Demo.sign "us-west-2" "es" Demo.key r with
              | Ok sh => sh | Throw _ => ∅ end).
  destruct (X7_signed_request_matches_incoming Demo.platform
              (Demo.config None None ∅) ∅ Demo.fine req
              (Proxied (proxy_call (parsed req) sh))
              [CredentialsAwaited; Signed r; ProxyWeb (proxy_call (parsed req) sh)]
              r) as (_ & _ & Hbody & _).
  - reflexivity.
  - vm_compute. reflexivity.
  - right. left. reflexivity.
  - exact Hbody.
Defined.

(** ** The forwarded request (lines 255-271) *)

Lemma signed_headers_other (sh : gmap string string) (hs : Headers) name :
  name <> "host" -> name <> "x-amz-date" -> name <> "authorization" ->
  name <> "x-amz-content-sha256" -> name <> "x-amz-security-token" ->
  signed_headers sh hs !! name = hs !! name.
Proof.
  intros H1 H2 H3 H4 H5. unfold signed_headers.
  destruct (Js.truthy (sh !! "x-amz-security-token"));
    rewrite !lookup_insert_ne by congruence; reflexivity.
Qed.

Lemma signed_headers_set (sh : gmap string string) (hs : Headers) :
  js_get (signed_headers sh hs) "host" = sh !! "host" /\
  js_get (signed_headers sh hs) "x-amz-date" = sh !! "x-amz-date" /\
  js_get (signed_headers sh hs) "authorization" = sh !! "authorization".
Proof.
  unfold js_get, signed_headers.
  destruct (Js.truthy (sh !! "x-amz-security-token"));
    repeat split;
    rewrite ?lookup_insert_ne by discriminate; now rewrite lookup_insert_eq.
Qed.

Lemma signed_headers_token (sh : gmap string string) (hs : Headers) :
  signed_headers sh hs !! "x-amz-security-token"
  = if Js.truthy (sh !! "x-amz-security-token")
    then Some (sh !! "x-amz-security-token")
    else hs !! "x-amz-security-token".
Proof.
  unfold signed_headers.
  destruct (Js.truthy (sh !! "x-amz-security-token")).
  - apply lookup_insert_eq.
  - rewrite !lookup_insert_ne by discriminate. reflexivity.
Qed.

(** X8. The request handed to the proxy has the method and the URL of the
    incoming request, and every header of the incoming request other than
    host, x-amz-date, authorization, x-amz-content-sha256 and
    x-amz-security-token, unchanged. *)
Theorem X8_forwarded_request_keeps_the_rest
    (P : Platform) (cfg : Config) (env : ProcessEnv) (w : World)
    (req : Request) (reply : Reply) (tr : list Event) (call : ProxyCall) :
  handle P cfg env w req = (reply, tr) ->
  In (ProxyWeb call) tr ->
  call_method call = method req /\
  call_url call = url req /\
  forall name,
    name <> "host" -> name <> "x-amz-date" -> name <> "authorization" ->
    name <> "x-amz-content-sha256" -> name <> "x-amz-security-token" ->
    call_headers call !! name = headers req !! name.
Proof.
  intros Hh Hin.
  destruct (handle_proxied _ _ _ _ _ _ _ _ Hh Hin)
    as (_ & host & c & sh & _ & _ & _ & -> & _).
  cbn [proxy_call call_method call_url call_headers set_headers
       method url headers].
  unfold parsed. destruct (payload req); cbn [set_body method url headers];
    repeat split; intros; now apply signed_headers_other.
Qed.

Lemma X8_forwarded_request_keeps_the_rest_witness :
  exists call, call_headers call !! "cookie" = Some (Some "sid=1").
Proof.
  pose (req := Demo.request "GET" "/_cat/indices"
                 {[ "cookie" := Some "sid=1" ]} None).
  pose (r := sign_request Demo.platform
               "search-prod.us-west-2.es.amazonaws.com" req).
  pose (sh := <["authorization" := "AWS4-HMAC-SHA256 Credential=AKIDEXAMPLE/us-west-2/es/aws4_request"]>
                (<["x-amz-date" := "20260101T000000Z"]> (sr_headers r))).
  exists (proxy_call req sh).
  destruct (X8_forwarded_request_keeps_the_rest Demo.platform
              (Demo.config None None ∅) ∅ Demo.fine req
              (Proxied (proxy_call req sh))
              [CredentialsAwaited; Signed r; ProxyWeb (proxy_call req sh)]
              (proxy_call req sh)) as (_ & _ & Hrest).
  - vm_compute. reflexivity.
  - right. right. left. reflexivity.
  - rewrite (Hrest "cookie"); [vm_compute; reflexivity|discriminate..].
Defined.

(** X9. On the request handed to the proxy, host, x-amz-date,
    authorization and x-amz-content-sha256 are what the signer returned for
    this request, whatever the caller sent under those names: the caller's
    own Authorization header (its Basic-Auth credentials) is replaced. The
    security token is the signer's when the signer returned a non-empty
    one; otherwise the caller's x-amz-security-token header, if any, stays
    as it came. *)
Theorem X9_signature_headers_from_signer
    (P : Platform) (cfg : Config) (env : ProcessEnv) (w : World)
    (req : Request) (reply : Reply) (tr : list Event) (call : ProxyCall) :
  handle P cfg env w req = (reply, tr) ->
  In (ProxyWeb call) tr ->
  exists host c signed,
    Url.hostname (ENDPOINT cfg) = Some host /\
    signer_sign P (REGION cfg) "es" c (sign_request P host (parsed req))
    = Ok signed /\
    js_get (call_headers call) "host" = signed !! "host" /\
    js_get (call_headers call) "x-amz-date" = signed !! "x-amz-date" /\
    js_get (call_headers call) "authorization" = signed !! "authorization" /\
    js_get (call_headers call) "x-amz-content-sha256"
    = signed !! "x-amz-content-sha256" /\
    call_headers call !! "x-amz-security-token"
    = (if Js.truthy (signed !! "x-amz-security-token")
       then Some (signed !! "x-amz-security-token")
       else headers req !! "x-amz-security-token").
Proof.
  intros Hh Hin.
  destruct (handle_proxied _ _ _ _ _ _ _ _ Hh Hin)
    as (_ & host & c & sh & Hhost & _ & Hs & -> & _).
  exists host, c, sh. split; [assumption|]. split; [assumption|].
  cbn [proxy_call call_headers set_headers headers].
  assert (Hhs : headers (parsed req) = headers req)
    by (unfold parsed; now destruct (payload req)).
  rewrite Hhs.
  destruct (signed_headers_set sh (headers req)) as (H1 & H2 & H3).
  repeat split; try assumption.
  - apply signed_headers_hash.
  - apply signed_headers_token.
Qed.

Lemma X9_signature_headers_from_signer_witness :
  exists call,
    js_get (call_headers call) "authorization"
    = Some "AWS4-HMAC-SHA256 Credential=AKIDEXAMPLE/us-west-2/es/aws4_request".
Proof.
  pose (req := Demo.request "GET" "/_cat/indices"
                 {[ "authorization" := Some "Basic cm9vdDpodW50ZXIy" ]} None).
  pose (r := sign_request Demo.platform
               "search-prod.us-west-2.es.amazonaws.com" req).
  pose (sh := <["authorization" := "AWS4-HMAC-SHA256 Credential=AKIDEXAMPLE/us-west-2/es/aws4_request"]>
                (<["x-amz-date" := "20260101T000000Z"]> (sr_headers r))).
  exists (proxy_call req sh).
  destruct (X9_signature_headers_from_signer Demo.platform
              (Demo.config None None Demo.auth_env) Demo.auth_env Demo.fine req
              (Proxied (proxy_call req sh))
              [CredentialsAwaited; Signed r; ProxyWeb (proxy_call req sh)]
              (proxy_call req sh))
    as (host & c & signed & _ & _ & _ & _ & _ & _).
  - vm_compute. reflexivity.
  - right. right. left. reflexivity.
  - vm_compute. reflexivity.
Defined.

(** ** What a request can come to (lines 176-278) *)

(** What the body parser hands on. *)
Lemma parser_hands_on P cfg w req req' t :
  bodyParser_raw P (argv_l (ARGV cfg)) w req = (Next req', t) ->
  oversize P cfg req = false /\ req' = parsed req /\ t = [].
Proof.
  unfold bodyParser_raw, oversize, parsed.
  destruct (payload req) as [b|].
  - destruct (too_large _ b); [discriminate|]. now intros [= <-  <-].
  - now intros [= <- <-].
Qed.

Lemma parsed_url req : url (parsed req) = url req.
Proof. unfold parsed. now destruct (payload req). Qed.

(** The answers of the stack, each with what brought it about. *)
Lemma handle_replies P cfg env w req reply tr :
  handle P cfg env w req = (reply, tr) ->
  (reply = ErrorPage 413 /\ tr = [] /\ oversize P cfg req = true) \/
  (reply = ErrorPage 500 /\ tr = [CredentialsAwaited] /\
   oversize P cfg req = false /\
   ((exists m, await_credentials w 0 = Throw m) \/
    (exists users name pass m,
       basic_auth_users (ARGV cfg) env = Some users /\
       parse_basic P (js_get (headers req) "authorization")
       = Some (name, pass) /\
       authorizer P users name pass = Fault m))) \/
  (reply = Sent 200 [("Content-Type", "text/plain")] "ok" /\
   tr = [CredentialsAwaited] /\ oversize P cfg req = false /\
   health_hit P cfg req = true) \/
  (reply = Sent 401 [("WWW-Authenticate", "Basic")] "" /\
   tr = [CredentialsAwaited] /\ oversize P cfg req = false /\
   health_hit P cfg req = false /\
   exists users, basic_auth_users (ARGV cfg) env = Some users /\
                 unauthenticated P users req) \/
  (reply = Sent 500 [] "Internal Server Error" /\
   reaches_signer P cfg env w req /\
   (tr = [CredentialsAwaited] \/
    exists r, tr = [CredentialsAwaited; Signed r])) \/
  (exists r call,
     reply = Proxied call /\ reaches_signer P cfg env w req /\
     tr = [CredentialsAwaited; Signed r; ProxyWeb call] /\
     call_url call = url req).
Proof.
  intros Hh. rewrite handle_eq in Hh.
  destruct (oversize P cfg req) eqn:Eo.
  { injection Hh as <- <-. now left. }
  destruct (await_credentials w 0) as [c0|m0] eqn:Ec.
  2:{ injection Hh as <- <-. right. left. repeat split. left. eauto. }
  destruct (health_hit P cfg req) eqn:Ehh.
  { injection Hh as <- <-. right. right. now left. }
  cbv zeta in Hh.
  assert (Hgo : forall r t,
            forward P cfg w (parsed req) = (r, t) ->
            (r = Sent 500 [] "Internal Server Error" /\
             (CredentialsAwaited :: t = [CredentialsAwaited] \/
              exists q, CredentialsAwaited :: t
                        = [CredentialsAwaited; Signed q])) \/
            exists q call,
              r = Proxied call /\
              CredentialsAwaited :: t
              = [CredentialsAwaited; Signed q; ProxyWeb call] /\
              call_url call = url req).
  { intros r t Hf. rewrite forward_eq in Hf.
    destruct (Url.hostname (ENDPOINT cfg));
      [|injection Hf as <- <-; left; split; [reflexivity|now left]].
    cbv zeta in Hf.
    destruct (match await_credentials w 1 with
              | Ok c => signer_sign P (REGION cfg) "es" c _
              | Throw m => Throw m end); injection Hf as <- <-.
    - right. do 2 eexists. repeat split. apply parsed_url.
    - left. split; [reflexivity|]. right. eauto. }
  destruct (forward P cfg w (parsed req)) as [r0 t0] eqn:Ef.
  destruct (basic_auth_users (ARGV cfg) env) as [users|] eqn:Eu.
  - destruct (parse_basic P (js_get (headers req) "authorization"))
      as [[name pass]|] eqn:Ep.
    + destruct (authorizer P users name pass) eqn:Ea; injection Hh as <- <-.
      * assert (Hr : reaches_signer P cfg env w req).
        { unfold reaches_signer. rewrite Eo, Ec, Ehh, Eu. repeat split; eauto. }
        destruct (Hgo _ _ eq_refl) as [[-> Ht]|(q & call & -> & Ht & Hu)];
          right; right; right; right; [left|right]; eauto 10.
      * right. right. right. left. repeat split. exists users.
        split; [reflexivity|]. unfold unauthenticated. now rewrite Ep, Ea.
      * right. left. repeat split. right. eauto 10.
    + injection Hh as <- <-. right. right. right. left. repeat split.
      exists users. split; [reflexivity|]. unfold unauthenticated.
      now rewrite Ep.
  - injection Hh as <- <-.
    assert (Hr : reaches_signer P cfg env w req).
    { unfold reaches_signer. rewrite Eo, Ec, Ehh, Eu. repeat split; eauto. }
    destruct (Hgo _ _ eq_refl) as [[-> Ht]|(q & call & -> & Ht & Hu)];
      right; right; right; right; [left|right]; eauto 10.
Qed.

(** X10. A request that the body parser hands on leaves one of three
    records behind: the credential resolution alone, that and one signing
    that failed (the answer is then 500 Internal Server Error), or that,
    one signing and one call of the proxy, to which the answer is then
    left. So the credentials are resolved at the gate exactly once, at most
    one request is signed, the proxy is called at most once and only after
    a signing, the answer is left to the proxy exactly when the proxy was
    called, and an answer of the upstream is relayed only then. *)
Theorem X10_trace_shape
    (P : Platform) (cfg : Config) (env : ProcessEnv) (w : World)
    (req req' : Request) (reply : Reply) (tr : list Event) :
  bodyParser_raw P (argv_l (ARGV cfg)) w req = (Next req', []) ->
  handle P cfg env w req = (reply, tr) ->
  ((tr = [CredentialsAwaited] /\ forall call, reply <> Proxied call) \/
   (exists r, tr = [CredentialsAwaited; Signed r] /\
              reply = Sent 500 [] "Internal Server Error") \/
   (exists r call, tr = [CredentialsAwaited; Signed r; ProxyWeb call] /\
                   reply = Proxied call)) /\
  (forall upstream res relayed,
     settle upstream res reply = Relayed relayed ->
     exists r call up,
       tr = [CredentialsAwaited; Signed r; ProxyWeb call] /\
       upstream call = Responds up /\
       relayed = relay up (on_proxyRes (url req) res)).
Proof.
  intros Hp Hh. destruct (parser_hands_on _ _ _ _ _ _ Hp) as (Ho & _ & _).
  destruct (handle_replies _ _ _ _ _ _ _ Hh)
    as [(_ & _ & Ho')|[(-> & -> & _)|[(-> & -> & _)|[(-> & -> & _)
       |[(-> & _ & [->|[r ->]])|(r & call & -> & _ & -> & Hu)]]]]];
    [congruence| | | | | |]; (split; [|cbn [settle]]); try discriminate.
  - left. split; [reflexivity|discriminate].
  - left. split; [reflexivity|discriminate].
  - left. split; [reflexivity|discriminate].
  - left. split; [reflexivity|discriminate].
  - right. left. eauto.
  - right. right. eauto.
  - intros upstream res relayed.
    destruct (upstream call) as [up|m sent] eqn:Eu.
    + intros [= <-]. rewrite Hu. eauto 10.
    + destruct (on_error sent); discriminate.
Qed.

Lemma X10_trace_shape_witness :
  exists r call,
    snd (handle Demo.platform (Demo.config None None ∅) ∅ Demo.fine
           (Demo.request "GET" "/_cat/indices" ∅ None))
    = [CredentialsAwaited; Signed r; ProxyWeb call].
Proof.
  destruct (handle Demo.platform (Demo.config None None ∅) ∅ Demo.fine
              (Demo.request "GET" "/_cat/indices" ∅ None)) as [reply tr] eqn:E.
  destruct (X10_trace_shape Demo.platform (Demo.config None None ∅) ∅
              Demo.fine (Demo.request "GET" "/_cat/indices" ∅ None)
              (Demo.request "GET" "/_cat/indices" ∅ None) reply tr)
    as [[[Ht _]|[(r & Ht & _)|(r & call & Ht & _)]] _];
    [vm_compute; reflexivity|exact E| | |];
    try (rewrite Ht in E; vm_compute in E; discriminate).
  exists r, call. exact Ht.
Defined.

(** X11. A request that the body parser hands on is answered in one of
    seven ways, and never with a 404: the application never runs out of
    handlers. The 500 error page is sent when the credentials cannot be
    resolved or the authorizer fails, the 200 only to a request the health
    route takes, the 401 challenge only with Basic-Auth on and to a request
    that is not authenticated. A request that passed every gate gets the
    handler's 500 Internal Server Error, or, once the proxy is called, the
    answer of the upstream relayed, or 500 Proxy error occurred when the
    call of the upstream fails before any header was sent, or nothing more
    from the application when it fails after that. *)
Theorem X11_replies
    (P : Platform) (cfg : Config) (env : ProcessEnv) (w : World)
    (req req' : Request) (upstream : ProxyCall -> Upstream)
    (res : ServerResponse) (answer : Answer) :
  bodyParser_raw P (argv_l (ARGV cfg)) w req = (Next req', []) ->
  settle upstream res (fst (handle P cfg env w req)) = answer ->
  (answer = Replied (ErrorPage 500) /\
   ((exists m, await_credentials w 0 = Throw m) \/
    (exists users name pass m,
       basic_auth_users (ARGV cfg) env = Some users /\
       parse_basic P (js_get (headers req) "authorization")
       = Some (name, pass) /\
       authorizer P users name pass = Fault m))) \/
  (answer = Replied (Sent 200 [("Content-Type", "text/plain")] "ok") /\
   health_hit P cfg req = true) \/
  (answer = Replied (Sent 401 [("WWW-Authenticate", "Basic")] "") /\
   health_hit P cfg req = false /\
   exists users, basic_auth_users (ARGV cfg) env = Some users /\
                 unauthenticated P users req) \/
  (answer = Replied (Sent 500 [] "Internal Server Error") /\
   reaches_signer P cfg env w req) \/
  (exists call message,
     answer = Replied (Sent 500 [] "Proxy error occurred") /\
     reaches_signer P cfg env w req /\
     In (ProxyWeb call) (snd (handle P cfg env w req)) /\
     upstream call = Fails message false) \/
  (exists call message,
     answer = Unfinished /\
     reaches_signer P cfg env w req /\
     In (ProxyWeb call) (snd (handle P cfg env w req)) /\
     upstream call = Fails message true) \/
  (exists call up,
     answer = Relayed (relay up (on_proxyRes (url req) res)) /\
     reaches_signer P cfg env w req /\
     In (ProxyWeb call) (snd (handle P cfg env w req)) /\
     upstream call = Responds up).
Proof.
  intros Hp <-. destruct (parser_hands_on _ _ _ _ _ _ Hp) as (Ho & _ & _).
  destruct (handle P cfg env w req) as [reply tr] eqn:Hh. cbn [fst snd].
  destruct (handle_replies _ _ _ _ _ _ _ Hh)
    as [(_ & _ & Ho')|[(-> & _ & _ & Hc)|[(-> & _ & _ & Hhh)
       |[(-> & _ & _ & Hhh & Hu)|[(-> & Hr & _)
       |(r & call & -> & Hr & -> & Hu)]]]]];
    [congruence| | | | | ]; cbn [settle].
  - left. now split.
  - right. left. now split.
  - right. right. left. now split.
  - right. right. right. left. now split.
  - do 4 right.
    assert (Hin : In (ProxyWeb call)
                    [CredentialsAwaited; Signed r; ProxyWeb call])
      by (right; right; now left).
    destruct (upstream call) as [up|message [|]] eqn:Eu; cbn [on_error].
    + right. right. exists call, up. now rewrite Hu.
    + right. left. now exists call, message.
    + left. now exists call, message.
Qed.

Lemma X11_replies_witness :
  reaches_signer Demo.platform (Demo.config None None ∅) ∅ Demo.fine
    (Demo.request "GET" "/_cat/indices" ∅ None).
Proof.
  destruct (X11_replies Demo.platform (Demo.config None None ∅) ∅ Demo.fine
              (Demo.request "GET" "/_cat/indices" ∅ None)
              (Demo.request "GET" "/_cat/indices" ∅ None)
              (fun _ => Fails "connect ECONNREFUSED" false)
              {| res_status := 200; res_headers := ∅; res_body := [] |}
              (Replied (Sent 500 [] "Proxy error occurred")))
    as [[H _]|[[H _]|[[H _]|[[H _]|[(call & m & _ & H & _)
       |[(call & m & H & _)|(call & up & H & _)]]]]]];
    try discriminate; [vm_compute; reflexivity|vm_compute; reflexivity|].
  exact H.
Defined.

(** The upstream cannot be reached: the caller gets the 500 of the proxy's
    error handler. *)
Example upstream_unreachable :
  settle (fun _ => Fails "connect ECONNREFUSED" false)
    {| res_status := 200; res_headers := ∅; res_body := [] |}
    (fst (handle Demo.platform (Demo.config None None ∅) ∅ Demo.fine
            (Demo.request "GET" "/_cat/indices" ∅ None)))
  = Replied (Sent 500 [] "Proxy error occurred").
Proof. vm_compute. reflexivity. Qed.

(** X3. The two first gates come before everything else, the health check
    and Basic-Auth included. With a limit that [bytes.parse] can read, a
    request whose body is longer than the limit is answered with the 413
    error page and nothing at all is done with it: the credentials are not
    even resolved. A request that the body parser hands on has the
    credentials resolved first, and when they cannot be resolved it is
    answered with the 500 error page and nothing else is done with it. *)
Theorem X3_first_gates
    (P : Platform) (cfg : Config) (env : ProcessEnv) (w : World)
    (req : Request) (L : N) :
  body_limit P (argv_l (ARGV cfg)) = Some L ->
  (forall b, payload req = Some b -> (L < N.of_nat (length b))%N ->
     handle P cfg env w req = (ErrorPage 413, [])) /\
  (forall req',
     bodyParser_raw P (argv_l (ARGV cfg)) w req = (Next req', []) ->
     (exists t, snd (handle P cfg env w req) = CredentialsAwaited :: t) /\
     (forall m, await_credentials w 0 = Throw m ->
        handle P cfg env w req = (ErrorPage 500, [CredentialsAwaited]))).
Proof.
  intros HL. split.
  - intros b Hb Hlong. rewrite handle_eq. unfold oversize, too_large.
    rewrite Hb, HL. apply N.ltb_lt in Hlong. now rewrite Hlong.
  - intros req' Hp. destruct (parser_hands_on _ _ _ _ _ _ Hp) as (Ho & _ & _).
    split.
    + destruct (handle P cfg env w req) as [reply tr] eqn:Hh. cbn [snd].
      destruct (handle_replies _ _ _ _ _ _ _ Hh)
        as [(_ & _ & Ho')|[(_ & -> & _)|[(_ & -> & _)|[(_ & -> & _)
           |[(_ & _ & [->|[r ->]])|(r & call & _ & _ & -> & _)]]]]];
        [congruence| | | | | |]; eauto.
    + intros m Hm. rewrite handle_eq, Ho, Hm. reflexivity.
Qed.

Lemma X3_first_gates_witness :
  handle Demo.platform (Demo.config (Some "/health") (Some "4b") ∅) ∅
    Demo.expired (Demo.request "GET" "/health" ∅ (Some [x00; x01; x02; x03; x04]))
  = (ErrorPage 413, []).
Proof.
  destruct (X3_first_gates Demo.platform
              (Demo.config (Some "/health") (Some "4b") ∅) ∅ Demo.expired
              (Demo.request "GET" "/health" ∅ (Some [x00; x01; x02; x03; x04]))
              4%N)
    as (Hlong & _); [vm_compute; reflexivity|].
  apply (Hlong [x00; x01; x02; x03; x04]); [reflexivity|].
  vm_compute. reflexivity.
Defined.

(** A health check while the credentials cannot be resolved: the 500
    error page, not the route's answer. *)
Example health_check_behind_the_credential_gate :
  handle Demo.platform (Demo.config (Some "/health") None ∅) ∅ Demo.expired
    (Demo.request "GET" "/health" ∅ None)
  = (ErrorPage 500, [CredentialsAwaited]).
Proof. vm_compute. reflexivity. Qed.

(** X12. Once the authorizer accepts its credentials, a request is handled
    exactly as it would be by the same proxy with Basic-Auth off: the
    gate adds nothing to the answer or to what is signed and forwarded. *)
Theorem X12_accepted_request_as_without_basic_auth
    (P : Platform) (cfg cfg' : Config) (env env' : ProcessEnv) (w : World)
    (req : Request) (users : Users) (name pass : string) :
  ENDPOINT cfg' = ENDPOINT cfg -> REGION cfg' = REGION cfg ->
  argv_H (ARGV cfg') = argv_H (ARGV cfg) ->
  argv_l (ARGV cfg') = argv_l (ARGV cfg) ->
  basic_auth_users (ARGV cfg) env = Some users ->
  basic_auth_users (ARGV cfg') env' = None ->
  parse_basic P (js_get (headers req) "authorization") = Some (name, pass) ->
  authorizer P users name pass = Accept ->
  handle P cfg env w req = handle P cfg' env' w req.
Proof.
  intros He Hr HH Hl Hon Hoff Hp Ha. rewrite !handle_eq.
  unfold oversize, health_hit, forward. rewrite He, Hr, HH, Hl, Hon, Hoff, Hp, Ha.
  reflexivity.
Qed.

Lemma X12_accepted_request_as_without_basic_auth_witness :
  handle Demo.platform (Demo.config None None Demo.auth_env) Demo.auth_env
    Demo.fine
    (Demo.request "GET" "/_cat/indices"
       {[ "authorization" := Some "Basic cm9vdDpodW50ZXIy" ]} None)
  = handle Demo.platform (Demo.config None None ∅) ∅ Demo.fine
      (Demo.request "GET" "/_cat/indices"
         {[ "authorization" := Some "Basic cm9vdDpodW50ZXIy" ]} None).
Proof.
  apply (X12_accepted_request_as_without_basic_auth Demo.platform
           (Demo.config None None Demo.auth_env) (Demo.config None None ∅)
           Demo.auth_env ∅ Demo.fine _ {[ "root" := Some "hunter2" ]}
           "root" "hunter2");
    vm_compute; reflexivity.
Defined.

(** X13. When the endpoint parses but the signer fails, or the credentials
    cannot be resolved for it, a request that passed every gate is answered
    with 500 Internal Server Error; the proxy is not called and nothing
    goes upstream. *)
Theorem X13_signer_failure
    (P : Platform) (cfg : Config) (env : ProcessEnv) (w : World)
    (req : Request) (host : string) :
  reaches_signer P cfg env w req ->
  Url.hostname (ENDPOINT cfg) = Some host ->
  (exists m, await_credentials w 1 = Throw m) \/
  (exists c m, await_credentials w 1 = Ok c /\
               signer_sign P (REGION cfg) "es" c
                 (sign_request P host (parsed req)) = Throw m) ->
  handle P cfg env w req
  = (Sent 500 [] "Internal Server Error",
     [CredentialsAwaited; Signed (sign_request P host (parsed req))]).
Proof.
  intros Hr Hhost Hfail.
  rewrite (handle_reaches _ _ _ _ _ Hr), forward_eq, Hhost. cbv zeta.
  destruct Hfail as [[m ->]|(c & m & -> & ->)]; reflexivity.
Qed.

Lemma X13_signer_failure_witness :
  fst (handle Scenario.refusing (Demo.config None None ∅) ∅ Demo.fine
         (Demo.request "GET" "/_cat/indices" ∅ None))
  = Sent 500 [] "Internal Server Error".
Proof.
  rewrite (X13_signer_failure Scenario.refusing (Demo.config None None ∅) ∅
             Demo.fine (Demo.request "GET" "/_cat/indices" ∅ None)
             "search-prod.us-west-2.es.amazonaws.com").
  - reflexivity.
  - repeat split; try (vm_compute; reflexivity). now exists Demo.key.
  - vm_compute. reflexivity.
  - right. exists Demo.key, "signing failed". split; reflexivity.
Defined.

(** ** Credential initialisation, every branch (lines 108-157) *)

Ltac init_unfold :=
  unfold Init.initializeCredentials, Init.load, Init.try_catch, Init.bind,
    Init.set_credentials, Init.set_signer, Init.await_credentials, Init.emit,
    Init.get_credentials, Init.sts_send, Init.ret, Init.start.

Ltac init_split :=
  repeat (unfold Init.bind, Init.await_credentials; init_step;
          match goal with
          | |- context [match Init.resolve ?c ?p ?n with _ => _ end] =>
              destruct (Init.resolve c p n) eqn:?
          | |- context [match Init.get_caller_identity ?c ?r ?k with _ => _ end] =>
              destruct (Init.get_caller_identity c r k) eqn:?
          | |- context [if Js.includes ?a ?b then _ else _] =>
              destruct (Js.includes a b) eqn:?
          end);
  unfold Init.bind, Init.await_credentials; init_step.

(** Every branch of the initialisation, run to its end. *)
Ltac init_run PROFILE :=
  init_unfold; destruct (Js.truthy PROFILE) eqn:?; init_split.

(** The messages of the initialisation start differently. *)
Lemma log_validated_not_fallback a :
  "AWS credentials validated successfully for account: " +:+ a
  <> "SSO credentials not available, trying regular profile...".
Proof. rewrite append_cons. discriminate. Qed.

Lemma error_failed_not_hint m :
  "Failed to load AWS credentials: " +:+ m
  <> Init.nl "To authenticate with AWS SSO, run:".
Proof. rewrite append_cons. discriminate. Qed.

Lemma error_login_not_hint s :
  "aws sso login --profile " +:+ s
  <> Init.nl "To authenticate with AWS SSO, run:".
Proof. rewrite append_cons. discriminate. Qed.

Ltac in_cases :=
  cbn [In] in *;
  repeat match goal with
         | H : _ \/ _ |- _ => destruct H
         | H : False |- _ => destruct H
         | H : Init.Log _ = Init.Log _ |- _ => injection H as H
         | H : Init.Error _ = Init.Error _ |- _ => injection H as H
         | H : Init.Constructed _ = Init.Constructed _ |- _ => injection H as H
         | H : _ +:+ _ = _ |- _ =>
             first [ now apply log_validated_not_fallback in H
                   | now apply error_failed_not_hint in H
                   | now apply error_login_not_hint in H ]
         end;
  try discriminate; try congruence.

(** X14. The fallback of the initialisation runs exactly when a profile is
    configured and the first resolution of its provider fails. With no
    profile (AWS_PROFILE unset or empty) the only provider ever built is
    the default chain, and with a profile the only one is the chain of
    that profile. At most three resolutions are awaited. *)
Theorem X14_fallback_only_after_failed_profile
    (PROFILE : option string) (REGION : string) (cloud : Init.Cloud) :
  let st := snd (Init.initializeCredentials PROFILE REGION cloud Init.start) in
  (In (Init.Log "SSO credentials not available, trying regular profile...")
      (Init.trace st)
   <-> Js.truthy PROFILE = true /\
       exists m, Init.resolve cloud (Init.fromNodeProviderChain PROFILE) 0
                 = Throw m) /\
  (forall q, In (Init.Constructed q) (Init.trace st) ->
     q = Init.fromNodeProviderChain
           (if Js.truthy PROFILE then PROFILE else None)) /\
  Init.clock st <= 3.
Proof.
  init_run PROFILE; (split; [split|split]);
    try (intros; in_cases; fail);
    try (repeat constructor; fail);
    try (intros _; split; [reflexivity|eauto]; fail);
    try (intros [_ [m Hm]]; congruence);
    try (intros [Hf _]; discriminate).
  all: try (intros _; left; reflexivity).
  all: try (cbn [In]; tauto).
Qed.

Lemma X14_fallback_only_after_failed_profile_witness :
  In (Init.Log "SSO credentials not available, trying regular profile...")
     (Init.trace (snd (Init.initializeCredentials (Some "dev") "us-west-2"
                         Demo.flaky Init.start))).
Proof.
  apply (X14_fallback_only_after_failed_profile (Some "dev") "us-west-2"
           Demo.flaky).
  split; [reflexivity|]. now exists "The SSO session has expired".
Defined.

(** X15. When the initialisation succeeds, the global provider is the chain
    of the profile (the default chain without a profile), the signer is
    built on that very provider with the resolved region and the service
    es, the account returned is the one the identity service gave for
    credentials that the provider resolved, the last thing done is the log
    of that account, and neither an error was printed nor the process
    exited. *)
Theorem X15_initialised_state
    (PROFILE : option string) (REGION : string) (cloud : Init.Cloud)
    (account : string) (st : Init.State) :
  Init.initializeCredentials PROFILE REGION cloud Init.start
  = (Ok account, st) ->
  let p := Init.fromNodeProviderChain
             (if Js.truthy PROFILE then PROFILE else None) in
  Init.credentials st = Some p /\
  Init.signer st = Some {| Init.signer_credentials := p;
                           Init.signer_region := REGION;
                           Init.signer_service := "es" |} /\
  (exists n c, Init.resolve cloud p n = Ok c /\
               Init.get_caller_identity cloud REGION c = Ok account) /\
  last (Init.trace st)
  = Some (Init.Log ("AWS credentials validated successfully for account: "
                    +:+ account)) /\
  (forall code, ~ In (Init.ProcessExit code) (Init.trace st)) /\
  (forall m, ~ In (Init.Error m) (Init.trace st)).
Proof.
  init_run PROFILE; intros [= <- <-]; cbv zeta; init_step;
    repeat split; eauto; intros ? ?; in_cases.
Qed.

Lemma X15_initialised_state_witness :
  Init.signer (snd (Init.initializeCredentials None "us-west-2"
                      Scenario.steady Init.start))
  = Some {| Init.signer_credentials := Init.fromNodeProviderChain None;
            Init.signer_region := "us-west-2";
            Init.signer_service := "es" |}.
Proof.
  destruct (X15_initialised_state None "us-west-2" Scenario.steady
              "123456789012"
              (snd (Init.initializeCredentials None "us-west-2"
                      Scenario.steady Init.start)))
    as (_ & Hsigner & _); [reflexivity|exact Hsigner].
Defined.

(** The events before the last ones. *)
Ltac events_before :=
  match goal with
  | |- ex (fun before => ?l = @?r before) =>
      first [ exists (firstn 1 l); reflexivity
            | exists (firstn 2 l); reflexivity
            | exists (firstn 3 l); reflexivity
            | exists (firstn 4 l); reflexivity
            | exists (firstn 5 l); reflexivity
            | exists (firstn 6 l); reflexivity
            | exists (firstn 7 l); reflexivity
            | exists (firstn 8 l); reflexivity ]
  end.

(** X16. When the initialisation fails, whether a resolution or the
    identity call failed, the failure is printed with its message and the
    last thing done is [process.exit(1)]. The hint to log in with SSO, a
    line feed and then [To authenticate with AWS SSO, run:], is printed
    exactly when the message contains SSO; the command under it names the
    configured profile, or default when none is configured, and the hint
    to configure SSO, again behind a line feed, follows. *)
Theorem X16_failed_initialisation
    (PROFILE : option string) (REGION : string) (cloud : Init.Cloud)
    (message : string) (st : Init.State) :
  Init.initializeCredentials PROFILE REGION cloud Init.start
  = (Throw message, st) ->
  last (Init.trace st) = Some (Init.ProcessExit 1) /\
  In (Init.Error ("Failed to load AWS credentials: " +:+ message))
     (Init.trace st) /\
  (In (Init.Error (String (ascii_of_nat 10)
                     "To authenticate with AWS SSO, run:")) (Init.trace st)
   <-> Js.includes "SSO" message = true) /\
  (Js.includes "SSO" message = true ->
   exists before,
     Init.trace st =
       (before ++
        [Init.Error ("Failed to load AWS credentials: " +:+ message);
         Init.Error (String (ascii_of_nat 10)
                       "To authenticate with AWS SSO, run:");
         Init.Error ("aws sso login --profile " +:+
                     Js.key (Js.or PROFILE (Some "default")));
         Init.Error (String (ascii_of_nat 10)
                       "Or if you need to configure SSO:");
         Init.Error "aws configure sso";
         Init.ProcessExit 1])%list) /\
  ((exists p n, Init.resolve cloud p n = Throw message) \/
   (exists c, Init.get_caller_identity cloud REGION c = Throw message)).
Proof.
  init_run PROFILE; intros [= <- <-]; init_step;
    (split; [reflexivity|]);
    (split; [cbn [In]; tauto|]);
    (split; [split; [intros; in_cases
                    |intros; first [congruence|cbn [In]; tauto]]|]);
    (split; [intros; first [congruence|events_before]|]);
    eauto.
Qed.

Lemma X16_failed_initialisation_witness :
  last (Init.trace (snd (Init.initializeCredentials (Some "dev") "us-west-2"
                           Scenario.barren Init.start)))
  = Some (Init.ProcessExit 1).
Proof.
  destruct (X16_failed_initialisation (Some "dev") "us-west-2" Scenario.barren
              "Could not load credentials from any providers"
              (snd (Init.initializeCredentials (Some "dev") "us-west-2"
                      Scenario.barren Init.start)))
    as (Hlast & _); [reflexivity|exact Hlast].
Defined.

(** An expired SSO session, with the profile dev: what is printed. *)
Example sso_hint_lines :
  let expired : Init.Cloud :=
    {| Init.resolve := fun _ _ => Throw "The SSO session has expired";
       Init.get_caller_identity := fun _ _ => Throw "unreachable" |} in
  Init.trace (snd (Init.initializeCredentials (Some "dev") "us-west-2"
                     expired Init.start))
  = [Init.Constructed (Init.fromNodeProviderChain (Some "dev"));
     Init.Awaited (Init.fromNodeProviderChain (Some "dev")) false;
     Init.Log "SSO credentials not available, trying regular profile...";
     Init.Constructed (Init.fromNodeProviderChain (Some "dev"));
     Init.Awaited (Init.fromNodeProviderChain (Some "dev")) false;
     Init.Error "Failed to load AWS credentials: The SSO session has expired";
     Init.Error (String (ascii_of_nat 10) "To authenticate with AWS SSO, run:");
     Init.Error "aws sso login --profile dev";
     Init.Error (String (ascii_of_nat 10) "Or if you need to configure SSO:");
     Init.Error "aws configure sso";
     Init.ProcessExit 1].
Proof. vm_compute. reflexivity. Qed.

(** ** Start of the server (lines 293-331) *)

Lemma init_events_only (l : list Init.Event) (e : Boot.Event) :
  In e (map Boot.Init l) -> exists i, e = Boot.Init i.
Proof.
  intros H. apply in_map_iff in H as (i & <- & _). now exists i.
Qed.

Lemma last_map_init (l : list Init.Event) (i : Init.Event) :
  last l = Some i -> last (map Boot.Init l) = Some (Boot.Init i).
Proof.
  intros H. change (map Boot.Init l) with (Boot.Init <$> l).
  now rewrite fmap_last, H.
Qed.

(** How the initialisation ends. *)
Lemma init_throw_last PROFILE REGION cloud message st :
  Init.initializeCredentials PROFILE REGION cloud Init.start
  = (Throw message, st) ->
  last (Init.trace st) = Some (Init.ProcessExit 1).
Proof. init_run PROFILE; intros [= <- <-]; reflexivity. Qed.

Lemma init_ok_last PROFILE REGION cloud account st :
  Init.initializeCredentials PROFILE REGION cloud Init.start
  = (Ok account, st) ->
  last (Init.trace st)
  = Some (Init.Log ("AWS credentials validated successfully for account: "
                    +:+ account)).
Proof. init_run PROFILE; intros [= <- <-]; reflexivity. Qed.

(** X17. The server listens only once the credentials have been validated:
    when the initialisation fails, the script ends on [process.exit(1)]
    without ever listening; when it succeeds, the script listens exactly
    once, on the port and address of the options, and everything the
    initialisation did comes before. *)
Theorem X17_listens_only_once_validated (cfg : Config) (cloud : Init.Cloud) :
  (forall message st,
     Init.initializeCredentials (PROFILE cfg) (REGION cfg) cloud Init.start
     = (Throw message, st) ->
     (forall port address,
        ~ In (Boot.Listen port address) (Boot.main cfg cloud)) /\
     last (Boot.main cfg cloud) = Some (Boot.Init (Init.ProcessExit 1))) /\
  (forall account st,
     Init.initializeCredentials (PROFILE cfg) (REGION cfg) cloud Init.start
     = (Ok account, st) ->
     exists rest,
       Boot.main cfg cloud
       = (map Boot.Init (Init.trace st)
          ++ Boot.Listen (argv_p (ARGV cfg)) (argv_b (ARGV cfg)) :: rest)%list /\
       (forall port address, ~ In (Boot.Listen port address) rest) /\
       last (Init.trace st)
       = Some (Init.Log ("AWS credentials validated successfully for account: "
                         +:+ account))).
Proof.
  split.
  - intros message st Hi. unfold Boot.main. rewrite Hi.
    pose proof (init_throw_last _ _ _ _ _ Hi) as Hlast.
    split; [|now apply last_map_init].
    intros port address Hin. apply init_events_only in Hin as [i Hi'].
    discriminate.
  - intros account st Hi. unfold Boot.main. rewrite Hi.
    pose proof (init_ok_last _ _ _ _ _ Hi) as Hlast.
    eexists. split; [unfold Boot.announce; cbv zeta; reflexivity|].
    split; [|exact Hlast].
    intros port address Hin. apply in_app_or in Hin as [Hin|Hin].
    + destruct (Js.truthy (argv_s (ARGV cfg))); cbn [In] in Hin;
        intuition discriminate.
    + apply in_app_or in Hin as [Hin|Hin].
      * cbn [In] in Hin. intuition discriminate.
      * destruct (Js.truthy (argv_H (ARGV cfg))); cbn [In] in Hin;
          intuition discriminate.
Qed.

Lemma X17_listens_only_once_validated_witness :
  last (Boot.main (Demo.config None None ∅) Scenario.barren)
  = Some (Boot.Init (Init.ProcessExit 1)).
Proof.
  destruct (X17_listens_only_once_validated (Demo.config None None ∅)
              Scenario.barren) as (Hfail & _).
  destruct (Hfail "Could not load credentials from any providers"
              (snd (Init.initializeCredentials None "us-west-2"
                      Scenario.barren Init.start)))
    as (_ & Hlast); [reflexivity|exact Hlast].
Defined.

Lemma configure_argv cli env cfg :
  configure cli env = Ready cfg -> ARGV cfg = parse_argv cli env.
Proof.
  unfold configure. destruct (negb _); [discriminate|].
  destruct (resolve_region _ _); [|discriminate]. now intros [= <-].
Qed.

(** What the script prints and binds, once it listens. *)
Lemma main_announces cfg cloud e :
  In e (Boot.main cfg cloud) ->
  (exists i, e = Boot.Init i) \/
  ((exists account st,
      Init.initializeCredentials (PROFILE cfg) (REGION cfg) cloud Init.start
      = (Ok account, st)) /\
   In e (Boot.announce cfg)).
Proof.
  unfold Boot.main.
  destruct (Init.initializeCredentials (PROFILE cfg) (REGION cfg) cloud
              Init.start) as [[account|m] st]; intros Hin.
  - apply in_app_or in Hin as [Hin|Hin].
    + left. eapply init_events_only, Hin.
    + right. split; [eauto|assumption].
  - left. eapply init_events_only, Hin.
Qed.

(** X18. Whenever the script listens, it does so on the address of the
    [-b] flag, else of a non-empty BIND_ADDRESS, else on 127.0.0.1, and,
    with no [-p] flag, on the port of a non-empty PORT, else on 9200. The
    option [-s] is declared without a type and with the default [false]:
    absent or given alone, with no value after it, it is false, and the
    banner is then printed right after the server listens, so a lone [-s]
    does not silence it. The line of the health endpoint is printed only
    with a non-empty health path. *)
Theorem X18_announcements
    (cli : Cli) (env : ProcessEnv) (cloud : Init.Cloud) (cfg : Config) :
  configure cli env = Ready cfg ->
  (forall port address, In (Boot.Listen port address) (Boot.main cfg cloud) ->
     address = match flag_b cli with
               | Some v => Some v
               | None => if Js.truthy (env !! "BIND_ADDRESS")
                         then env !! "BIND_ADDRESS" else Some "127.0.0.1"
               end /\
     (flag_p cli = None ->
      port = if Js.truthy (env !! "PORT") then env !! "PORT"
             else Some "9200")) /\
  (forall account st,
     Init.initializeCredentials (PROFILE cfg) (REGION cfg) cloud Init.start
     = (Ok account, st) ->
     flag_s cli = None ->
     exists port address rest,
       Boot.main cfg cloud
       = (map Boot.Init (Init.trace st)
          ++ Boot.Listen port address :: Boot.Banner :: rest)%list) /\
  (forall rest,
     In (Boot.Console ("Health endpoint enabled at http://" +:+ rest))
        (Boot.main cfg cloud) ->
     Js.truthy (with_default (flag_H cli) (env !! "HEALTH_PATH")) = true).
Proof.
  intros Ec. pose proof (configure_argv _ _ _ Ec) as Ha.
  split; [|split].
  - intros port address Hin.
    destruct (main_announces _ _ _ Hin) as [[i Hi]|[_ Hb]]; [discriminate|].
    unfold Boot.announce in Hb. cbv zeta in Hb. rewrite Ha in Hb.
    apply in_app_or in Hb as [Hb|Hb].
    + destruct Hb as [[= <- <-]|[]]. cbn [parse_argv argv_b argv_p].
      split; [reflexivity|]. now intros ->.
    + apply in_app_or in Hb as [Hb|Hb];
        [destruct (Js.truthy _); cbn [In] in Hb; intuition discriminate|].
      apply in_app_or in Hb as [Hb|Hb];
        [cbn [In] in Hb; intuition discriminate|].
      destruct (Js.truthy _); cbn [In] in Hb; intuition discriminate.
  - intros account st Hi Hs. unfold Boot.main. rewrite Hi.
    unfold Boot.announce. cbv zeta. rewrite Ha.
    cbn [parse_argv argv_s]. rewrite Hs. cbn [Js.truthy List.app].
    do 3 eexists. reflexivity.
  - intros rest Hin.
    destruct (main_announces _ _ _ Hin) as [[i Hi]|[_ Hb]]; [discriminate|].
    unfold Boot.announce in Hb. cbv zeta in Hb. rewrite Ha in Hb.
    apply in_app_or in Hb as [Hb|Hb];
      [cbn [In] in Hb; intuition discriminate|].
    apply in_app_or in Hb as [Hb|Hb];
      [destruct (Js.truthy _); cbn [In] in Hb; intuition discriminate|].
    apply in_app_or in Hb as [Hb|Hb].
    + cbn [In] in Hb. destruct Hb as [Hb|[Hb|[]]];
        apply (f_equal Boot.first_letter) in Hb; vm_compute in Hb; discriminate.
    + cbn [parse_argv argv_H] in Hb.
      destruct (Js.truthy (with_default (flag_H cli) (env !! "HEALTH_PATH")));
        [reflexivity|destruct Hb].
Qed.

Lemma X18_announcements_witness :
  exists cfg port address rest,
    configure (Demo.cli None None) ∅ = Ready cfg /\
    Boot.main cfg Scenario.steady
    = (map Boot.Init
         (Init.trace (snd (Init.initializeCredentials None "us-west-2"
                             Scenario.steady Init.start)))
       ++ Boot.Listen port address :: Boot.Banner :: rest)%list.
Proof.
  destruct (X18_announcements (Demo.cli None None) ∅ Scenario.steady
              (Demo.config None None ∅))
    as (_ & Hbanner & _); [vm_compute; reflexivity|].
  destruct (Hbanner "123456789012"
              (snd (Init.initializeCredentials None "us-west-2"
                      Scenario.steady Init.start)))
    as (port & address & rest & Hmain); [reflexivity|reflexivity|].
  exists (Demo.config None None ∅), port, address, rest.
  split; [vm_compute; reflexivity|exact Hmain].
Defined.

(** A lone [-s], the address and the port at their defaults: the banner is
    printed between the call of [listen] and the first line. *)
Example lone_silent_flag_keeps_the_banner :
  Boot.announce (Demo.config None None ∅)
  = [Boot.Listen (Some "9200") (Some "127.0.0.1");
     Boot.Banner;
     Boot.Console "AWS ES cluster available at http://127.0.0.1:9200";
     Boot.Console
       "OpenSearch Dashboards available at http://127.0.0.1:9200/_dashboards"].
Proof. vm_compute. reflexivity. Qed.
